(** * batch_convert.py: batch conversion of PDF files to Markdown

    A shallow embedding of [src/batch_convert.py] and the properties of
    its single function [convert_pdf_to_md].

    The script talks to two collaborators: the file system and an HTTP
    conversion service.  The file system is a finite map from paths to
    nodes; the service, and the operating system's refusals (permissions),
    are oracles collected in an environment record.  The service receives
    the interaction history so far, so one that answers the same request
    differently over time is covered.  Python exceptions are
    values of an error monad over the program state; the effects performed
    before an exception is raised persist, as they do in Python. *)

From Stdlib Require Import ZArith String Ascii List Lia Permutation.
From stdpp Require Import base option list gmap strings.

Local Open Scope string_scope.
Local Open Scope Z_scope.
Local Open Scope list_scope.

(** ** Values decoded from JSON

    [response.json()] yields Python values built from [None], booleans,
    numbers, strings, lists and dictionaries.  Numbers flow only into
    truth tests, [print] and [write] (where any number is a type error),
    so integers stand for all of them. *)

#[local] Set Warnings "-register-all".
Inductive json : Type :=
| JNull
| JBool (b : bool)
| JNum (n : Z)
| JStr (s : string)
| JArr (items : list json)
| JObj (members : list (string * json)).

(** Python's truth value of a decoded value. *)
Definition truthy (v : json) : bool :=
  match v with
  | JNull => false
  | JBool b => b
  | JNum n => negb (n =? 0)
  | JStr s => negb (String.eqb s "")
  | JArr items => match items with [] => false | _ => true end
  | JObj members => match members with [] => false | _ => true end
  end.

(** The exception classes the script can meet.  The first two are
    [requests.exceptions.ConnectionError] and its subclass
    [ConnectTimeout]; the handler at line 125 catches both.  All others
    fall to [except Exception] at line 129. *)
Inductive exn : Type :=
| ConnectionError
| ConnectTimeout
| ReadTimeout
| RequestException
| JSONDecodeError
| AttributeError
| KeyError
| TypeError
| FileNotFoundError
| FileExistsError
| NotADirectoryError
| IsADirectoryError
| PermissionError.

Definition is_connection_error (ex : exn) : bool :=
  match ex with
  | ConnectionError | ConnectTimeout => true
  | _ => false
  end.

(** A dictionary built by [json.loads] keeps the last binding of a
    repeated key. *)
Fixpoint dict_lookup (key : string) (members : list (string * json)) : option json :=
  match members with
  | [] => None
  | (k, v) :: rest =>
      match dict_lookup key rest with
      | Some w => Some w
      | None => if String.eqb k key then Some v else None
      end
  end.

(** [obj.get(key, default)]: only dictionaries have the method. *)
Definition py_get (obj : json) (key : string) (dflt : json) : exn + json :=
  match obj with
  | JObj members => inr (default dflt (dict_lookup key members))
  | _ => inl AttributeError
  end.

(** [obj[key]]. *)
Definition py_getitem (obj : json) (key : string) : exn + json :=
  match obj with
  | JObj members =>
      match dict_lookup key members with
      | Some v => inr v
      | None => inl KeyError
      end
  | _ => inl TypeError
  end.

(** ** Paths

    A path is the list of its segments from the root. *)

Abbreviation path := (list string).

(** [p.name]: the last segment. *)
Definition path_name (p : path) : string := List.last p "".

(** [str.rfind(c)]: index of the last occurrence, if any. *)
Fixpoint rfind_from (c : ascii) (s : string) (i : nat) : option nat :=
  match s with
  | EmptyString => None
  | String a s' =>
      match rfind_from c s' (S i) with
      | Some j => Some j
      | None => if Ascii.eqb a c then Some i else None
      end
  end.

Definition rfind (c : ascii) (s : string) : option nat := rfind_from c s 0.

(** [PurePath.stem]: the name without its last suffix; a name whose only
    dot is the first or the last character has no suffix. *)
Definition stem (name : string) : string :=
  match rfind "."%char name with
  | Some i =>
      if ((0 <? i) && (i <? String.length name - 1))%nat
      then substring 0 i name
      else name
  | None => name
  end.

(** [s.endswith(suffix)]. *)
Fixpoint endswith (s suffix : string) : bool :=
  String.eqb s suffix ||
  match s with
  | EmptyString => false
  | String _ s' => endswith s' suffix
  end.

(** The pattern ['*.pdf'] (case-sensitive matching, names starting with
    a dot included, as [pathlib] does). *)
Definition matches_pdf (name : string) : bool := endswith name ".pdf".

(** Line 49: [pdf_file.stem + '.md']. *)
Definition md_name (pdf_file : path) : string := stem (path_name pdf_file) +:+ ".md".

(** ** The file system *)

Inductive node : Type :=
| Dir
| File (content : string).

Abbreviation fs := (gmap path node).

(** The node at a path; the root is always a directory. *)
Definition node_at (σ : fs) (p : path) : option node :=
  match p with
  | [] => Some Dir
  | _ => σ !! p
  end.

(** [Path.exists()]. *)
Definition path_exists (σ : fs) (p : path) : bool :=
  match node_at σ p with
  | Some _ => true
  | None => false
  end.

(** [child_name dir p] is the name of [p] when [p] is an entry of [dir]. *)
Fixpoint child_name (dir p : path) : option string :=
  match dir, p with
  | [], [name] => Some name
  | d :: dir', s :: p' => if String.eqb d s then child_name dir' p' else None
  | _, _ => None
  end.

Definition children (σ : fs) (dir : path) : list string :=
  omap (child_name dir) (elements (dom σ)).

(** ** Messages and events

    Each [print] of the script is one constructor, carrying the values
    interpolated into the text. *)

Inductive message : Type :=
| MsgCreatedOutputDir (dir : path)                      (* line 21 *)
| MsgCannotCreateOutputDir (ex : exn)                   (* line 23 *)
| MsgInputDirMissing (dir : path)                       (* line 29 *)
| MsgNoPdfFound (dir : path)                            (* line 35 *)
| MsgFound (count : nat)                                (* line 38 *)
| MsgApiUrl (url : string)                              (* line 39 *)
| MsgProcessing (index total : nat) (name : string)     (* line 46 *)
| MsgSkipped (md_filename : string)                     (* line 52 *)
| MsgDownloading                                        (* line 92 *)
| MsgDownloadStatus (status : Z)                        (* line 98 *)
| MsgDownloadException (ex : exn)                       (* line 100 *)
| MsgSaved (md_filename : string)                       (* line 111 *)
| MsgNoContent                                          (* line 114 *)
| MsgApiError (error_msg : json)                        (* line 118 *)
| MsgHttpStatus (status : Z)                            (* line 121 *)
| MsgResponseBody (head : string)                       (* line 122 *)
| MsgConnectionFailed (url : string)                    (* line 126 *)
| MsgCheckDocker                                        (* line 127 *)
| MsgException (ex : exn)                               (* line 130 *)
| MsgSummary (success failed : nat) (dir : path).       (* lines 134-139 *)

(** What the outside world observes, most recent event first. *)
Inductive event : Type :=
| EvPrint (m : message)
| EvGlob (dir : path)
| EvPost (url filename content : string) (options : json) (timeout : Z)
| EvGet (url : json) (timeout : Z).

Abbreviation history := (list event).

(** ** The environment *)

Record response : Type := mkResponse {
  status_code : Z;
  text : string;
  (** the decoded body, [None] when [response.json()] raises *)
  json_body : option json;
}.

Inductive outcome (A : Type) : Type :=
| Raises (ex : exn)
| Returns (a : A).
Arguments Raises {A} ex.
Arguments Returns {A} a.

Record env : Type := mkEnv {
  (** order in which the operating system lists a directory *)
  listing_order : list string → list string;
  (** the operating system refuses to create this directory *)
  mkdir_denied : path → bool;
  (** ... to open this file for reading *)
  read_denied : path → bool;
  (** ... to open this file for writing *)
  write_denied : path → bool;
  (** [requests.post(url, files=.., data=.., timeout=..)] *)
  http_post : history → string → string → string → json → Z → outcome response;
  (** [requests.get(url, timeout=..)] *)
  http_get : history → json → Z → outcome response;
}.

(** Lines 8-12: the settings. *)
Record config : Type := mkConfig {
  INPUT_DIR : path;
  OUTPUT_DIR : path;
  API_URL : string;
}.

Definition default_config : config :=
  {| INPUT_DIR := ["D:"; "paper"; "教育学论文"];
     OUTPUT_DIR := ["D:"; "paper"; "教育学论文"; "md"];
     API_URL := "http://100.80.150.48:7917/api/convert" |}.

(** ** Program state and the monad of the script *)

Record state : Type := mkState {
  st_fs : fs;
  success_count : nat;
  fail_count : nat;
  trace : history;
}.

Definition M (A : Type) : Type := state → state * (exn + A).

Definition ret {A} (a : A) : M A := λ st, (st, inr a).
Definition raise {A} (ex : exn) : M A := λ st, (st, inl ex).
Definition bind {A B} (m : M A) (k : A → M B) : M B :=
  λ st, match m st with
        | (st', inr a) => k a st'
        | (st', inl ex) => (st', inl ex)
        end.
(** [try: m except Exception as e: h e] *)
Definition try_except {A} (m : M A) (h : exn → M A) : M A :=
  λ st, match m st with
        | (st', inr a) => (st', inr a)
        | (st', inl ex) => h ex st'
        end.
Definition lift {A} (r : exn + A) : M A := λ st, (st, r).

Declare Scope py_scope.
Delimit Scope py_scope with py.
Notation "x <- m ;; k" := (bind m (λ x, k))
  (at level 100, m at next level, right associativity) : py_scope.
Notation "m ;; k" := (bind m (λ _, k))
  (at level 100, right associativity) : py_scope.
Local Open Scope py_scope.

Definition emit (ev : event) : M unit :=
  λ st, (mkState (st_fs st) (success_count st) (fail_count st) (ev :: trace st), inr tt).
Definition print (m : message) : M unit := emit (EvPrint m).
Definition incr_success : M unit :=
  λ st, (mkState (st_fs st) (S (success_count st)) (fail_count st) (trace st), inr tt).
Definition incr_fail : M unit :=
  λ st, (mkState (st_fs st) (success_count st) (S (fail_count st)) (trace st), inr tt).
Definition set_node (p : path) (n : node) : M unit :=
  λ st, (mkState (<[p := n]> (st_fs st)) (success_count st) (fail_count st) (trace st), inr tt).
Definition of_outcome {A} (o : outcome A) : M A :=
  match o with
  | Raises ex => raise ex
  | Returns a => ret a
  end.

(** ** File-system and network operations *)

(** [p.exists()] on the current file system. *)
Definition exists_ (p : path) : M bool :=
  λ st, (st, inr (path_exists (st_fs st) p)).

(** [Path.mkdir(parents=True, exist_ok=True)]: every missing ancestor is
    created in turn, from the root down.  An ancestor that is a regular
    file, or a refusal of the operating system, raises; the directories
    created before that stay. *)
Fixpoint mkdir_from (e : env) (done : path) (todo : list string) : M unit :=
  match todo with
  | [] => ret tt
  | seg :: todo' =>
      let p := done ++ [seg] in
      λ st,
        match node_at (st_fs st) p with
        | Some Dir => mkdir_from e p todo' st
        | Some (File _) => raise (if todo' is [] then FileExistsError else NotADirectoryError) st
        | None =>
            if mkdir_denied e p then raise PermissionError st
            else (set_node p Dir ;; mkdir_from e p todo') st
        end
  end.

Definition mkdir_parents (e : env) (p : path) : M unit := mkdir_from e [] p.

(** [list(dir.glob('*.pdf'))]: the entries of [dir] whose name matches,
    in the order the operating system lists them. *)
Definition glob_pdf (e : env) (dir : path) : M (list path) :=
  λ st,
    let names := filter (λ name, matches_pdf name = true)
                        (listing_order e (children (st_fs st) dir)) in
    (emit (EvGlob dir) ;; ret ((λ name, dir ++ [name]) <$> names)) st.

(** [open(p, 'rb')], the content being read by the upload. *)
Definition open_rb (e : env) (p : path) : M string :=
  λ st,
    match node_at (st_fs st) p with
    | Some (File content) =>
        if read_denied e p then raise PermissionError st
        else ret content st
    | Some Dir => raise IsADirectoryError st
    | None => raise FileNotFoundError st
    end.

(** [open(dir / filename, 'w', encoding='utf-8')]: creates or truncates
    the file. *)
Definition open_w (e : env) (dir : path) (filename : string) : M unit :=
  λ st,
    let p := dir ++ [filename] in
    match node_at (st_fs st) dir with
    | Some Dir =>
        match node_at (st_fs st) p with
        | Some Dir => raise IsADirectoryError st
        | _ =>
            if write_denied e p then raise PermissionError st
            else set_node p (File "") st
        end
    | Some (File _) => raise NotADirectoryError st
    | None => raise FileNotFoundError st
    end.

(** [f_out.write(md_content)] on the file just opened: only a [str] can
    be written to a text file. *)
Definition file_write (p : path) (md_content : json) : M unit :=
  match md_content with
  | JStr s => set_node p (File s)
  | _ => raise TypeError
  end.

Definition requests_post (e : env) (url filename content : string)
    (options : json) (timeout : Z) : M response :=
  λ st,
    (emit (EvPost url filename content options timeout) ;;
     of_outcome (http_post e (trace st) url filename content options timeout)) st.

Definition requests_get (e : env) (url : json) (timeout : Z) : M response :=
  λ st,
    (emit (EvGet url timeout) ;;
     of_outcome (http_get e (trace st) url timeout)) st.

(** [response.json()]. *)
Definition response_json (r : response) : M json :=
  match json_body r with
  | Some v => ret v
  | None => raise JSONDecodeError
  end.

(** ** The script *)

(** Lines 66-70. *)
Definition options : json :=
  JObj [("is_ocr", JBool false); ("enable_formula", JBool true); ("enable_table", JBool true)].

(** Lines 89-100: with no inline content, try the download. *)
Definition download_if_missing (e : env) (result md_content : json) : M json :=
  if negb (truthy md_content) then
    data <- lift (py_getitem result "data") ;;
    md_url <- lift (py_get data "markdownUrl" JNull) ;;
    if truthy md_url then
      print MsgDownloading ;;
      try_except
        (md_response <- requests_get e md_url 60 ;;
         if status_code md_response =? 200 then ret (JStr (text md_response))
         else print (MsgDownloadStatus (status_code md_response)) ;; ret md_content)
        (λ ex, print (MsgDownloadException ex) ;; ret md_content)
    else ret md_content
  else ret md_content.

(** Lines 102-115. *)
Definition store_content (e : env) (output_path pdf_file : path) (md_content : json) : M unit :=
  if truthy md_content then
    let md_filename := md_name pdf_file in
    let target_file := output_path ++ [md_filename] in
    open_w e output_path md_filename ;;
    file_write target_file md_content ;;
    print (MsgSaved md_filename) ;;
    incr_success
  else
    print MsgNoContent ;;
    incr_fail.

(** Lines 82-123: reading the response. *)
Definition handle_response (e : env) (output_path pdf_file : path) (r : response) : M unit :=
  if status_code r =? 200 then
    result <- response_json r ;;
    success <- lift (py_get result "success" JNull) ;;
    if truthy success then
      data <- lift (py_getitem result "data") ;;
      md_content <- lift (py_get data "markdownContent" JNull) ;;
      md_content <- download_if_missing e result md_content ;;
      store_content e output_path pdf_file md_content
    else
      error_msg <- lift (py_get result "message" (JStr "未知错误")) ;;
      print (MsgApiError error_msg) ;;
      incr_fail
  else
    print (MsgHttpStatus (status_code r)) ;;
    print (MsgResponseBody (substring 0 200 (text r))) ;;
    incr_fail.

(** Lines 58-123: the body of the [try]. *)
Definition try_block (e : env) (cfg : config) (output_path pdf_file : path) : M unit :=
  f <- open_rb e pdf_file ;;
  r <- requests_post e (API_URL cfg) (path_name pdf_file) f options 600 ;;
  handle_response e output_path pdf_file r.

(** Lines 125-131: the two handlers. *)
Definition except_block (cfg : config) (ex : exn) : M unit :=
  if is_connection_error ex then
    print (MsgConnectionFailed (API_URL cfg)) ;;
    print MsgCheckDocker ;;
    incr_fail
  else
    print (MsgException ex) ;;
    incr_fail.

(** Lines 46-131: one pass of the [for] loop. *)
Definition loop_body (e : env) (cfg : config) (output_path : path)
    (total index : nat) (pdf_file : path) : M unit :=
  print (MsgProcessing index total (path_name pdf_file)) ;;
  let md_filename := md_name pdf_file in
  let target_file := output_path ++ [md_filename] in
  target_exists <- exists_ target_file ;;
  if target_exists then
    print (MsgSkipped md_filename)
  else
    try_except (try_block e cfg output_path pdf_file) (except_block cfg).

(** Line 45: [for index, pdf_file in enumerate(pdf_files, 1)]. *)
Fixpoint for_loop (e : env) (cfg : config) (output_path : path)
    (total index : nat) (pdf_files : list path) : M unit :=
  match pdf_files with
  | [] => ret tt
  | pdf_file :: rest =>
      loop_body e cfg output_path total index pdf_file ;;
      for_loop e cfg output_path total (S index) rest
  end.

(** Lines 133-139. *)
Definition summary (cfg : config) : M unit :=
  λ st, print (MsgSummary (success_count st) (fail_count st) (OUTPUT_DIR cfg)) st.

(** Lines 41-42. *)
Definition reset_counters : M unit :=
  λ st, (mkState (st_fs st) 0 0 (trace st), inr tt).

(** Lines 17-24: [true] when the output directory is there afterwards. *)
Definition ensure_output_dir (e : env) (cfg : config) : M bool :=
  let output_path := OUTPUT_DIR cfg in
  output_exists <- exists_ output_path ;;
  if negb output_exists then
    try_except
      (mkdir_parents e output_path ;;
       print (MsgCreatedOutputDir (OUTPUT_DIR cfg)) ;;
       ret true)
      (λ ex, print (MsgCannotCreateOutputDir ex) ;; ret false)
  else ret true.

(** Lines 15-139. *)
Definition convert_pdf_to_md (e : env) (cfg : config) : M unit :=
  let output_path := OUTPUT_DIR cfg in
  ready <- ensure_output_dir e cfg ;;
  if negb ready then ret tt
  else
    let input_path := INPUT_DIR cfg in
    input_exists <- exists_ input_path ;;
    if negb input_exists then
      print (MsgInputDirMissing (INPUT_DIR cfg))
    else
      pdf_files <- glob_pdf e input_path ;;
      if pdf_files is [] then
        print (MsgNoPdfFound (INPUT_DIR cfg))
      else
        print (MsgFound (length pdf_files)) ;;
        print (MsgApiUrl (API_URL cfg)) ;;
        reset_counters ;;
        for_loop e cfg output_path (length pdf_files) 1 pdf_files ;;
        summary cfg.

(** A run of the program on a file system: the final state. *)
Definition initial (σ : fs) : state := mkState σ 0 0 [].
Definition run (e : env) (cfg : config) (σ : fs) : state :=
  (convert_pdf_to_md e cfg (initial σ)).1.

(** ** Observations on a history *)

Definition posted (ev : event) : option string :=
  match ev with EvPost _ filename _ _ _ => Some filename | _ => None end.
Definition fetched (ev : event) : option (json * Z) :=
  match ev with EvGet url timeout => Some (url, timeout) | _ => None end.
Definition skipped (ev : event) : option string :=
  match ev with EvPrint (MsgSkipped md_filename) => Some md_filename | _ => None end.
Definition processed (ev : event) : option string :=
  match ev with EvPrint (MsgProcessing _ _ name) => Some name | _ => None end.
Definition summarised (ev : event) : option (nat * nat * path) :=
  match ev with EvPrint (MsgSummary s f d) => Some (s, f, d) | _ => None end.
Definition globbed (ev : event) : option path :=
  match ev with EvGlob dir => Some dir | _ => None end.

Definition handled (ev : event) : option message :=
  match ev with
  | EvPrint (MsgConnectionFailed url) => Some (MsgConnectionFailed url)
  | EvPrint (MsgException ex) => Some (MsgException ex)
  | EvPrint (MsgDownloadException ex) => Some (MsgDownloadException ex)
  | _ => None
  end.

(** The file names uploaded, the URLs fetched, the output names skipped,
    the documents announced, the summaries printed and the directories
    enumerated, most recent first. *)
Definition posts (h : history) : list string := omap posted h.
Definition gets (h : history) : list (json * Z) := omap fetched h.
Definition skips (h : history) : list string := omap skipped h.
Definition documents (h : history) : list string := omap processed h.
Definition summaries (h : history) : list (nat * nat * path) := omap summarised h.
Definition globs (h : history) : list path := omap globbed h.
(** The reports of the three [except] clauses. *)
Definition exceptions (h : history) : list message := omap handled h.

(** [open(p, 'rb')] would succeed. *)
Definition readable (e : env) (σ : fs) (p : path) : bool :=
  match node_at σ p with
  | Some (File _) => negb (read_denied e p)
  | _ => false
  end.

(** Line 50: the candidate Output Document of a source document. *)
Definition target (out pdf_file : path) : path := out ++ [md_name pdf_file].

Definition has_output (σ : fs) (out pdf_file : path) : bool :=
  path_exists σ (target out pdf_file).

(** The three ways one pass of the loop can end. *)
Inductive verdict : Type := Skipped | Succeeded | Failed.

(** What one pass does to the state, by verdict; [Δ] is what it adds to
    the history. *)
Record iteration (e : env) (out pdf_file : path) (st st' : state)
    (v : verdict) (Δ : history) : Prop := {
  it_trace : trace st' = Δ ++ trace st;
  it_documents : documents Δ = [path_name pdf_file];
  it_summaries : summaries Δ = [];
  it_globs : globs Δ = [];
  it_verdict :
    match v with
    | Skipped =>
        has_output (st_fs st) out pdf_file = true ∧
        st_fs st' = st_fs st ∧
        success_count st' = success_count st ∧ fail_count st' = fail_count st ∧
        skips Δ = [md_name pdf_file] ∧ posts Δ = [] ∧ gets Δ = [] ∧
        exceptions Δ = []
    | Succeeded =>
        has_output (st_fs st) out pdf_file = false ∧
        (∃ s, s ≠ "" ∧ st_fs st' = <[target out pdf_file := File s]> (st_fs st)) ∧
        success_count st' = S (success_count st) ∧ fail_count st' = fail_count st ∧
        skips Δ = [] ∧ posts Δ = [path_name pdf_file] ∧
        readable e (st_fs st) pdf_file = true ∧
        exceptions Δ = []
    | Failed =>
        has_output (st_fs st) out pdf_file = false ∧
        (st_fs st' = st_fs st ∨ st_fs st' = <[target out pdf_file := File ""]> (st_fs st)) ∧
        success_count st' = success_count st ∧ fail_count st' = S (fail_count st) ∧
        skips Δ = [] ∧
        posts Δ = (if readable e (st_fs st) pdf_file then [path_name pdf_file] else [])
    end;
}.

(** An execution of the loop over a list of documents, with the verdict
    of each pass. *)
Inductive loop_run (e : env) (out : path) :
    list path → state → state → list verdict → history → Prop :=
| loop_done st : loop_run e out [] st st [] []
| loop_pass pdf_file rest st st1 st2 v vs Δ1 Δ2 :
    iteration e out pdf_file st st1 v Δ1 →
    loop_run e out rest st1 st2 vs Δ2 →
    loop_run e out (pdf_file :: rest) st st2 (v :: vs) (Δ2 ++ Δ1).

#[global] Instance verdict_eq_dec : EqDecision verdict.
Proof. solve_decision. Defined.

Definition count_verdict (v : verdict) (vs : list verdict) : nat :=
  length (filter (λ w, w = v) vs).

(** The state and the documents with which the loop starts, when the run
    gets that far (lines 17-42). *)
Definition loop_entry (e : env) (cfg : config) (σ : fs) : option (state * list path) :=
  match ensure_output_dir e cfg (initial σ) with
  | (st1, inr true) =>
      if path_exists (st_fs st1) (INPUT_DIR cfg) then
        match glob_pdf e (INPUT_DIR cfg) st1 with
        | (st2, inr (pdf_file :: rest)) =>
            let pdf_files := pdf_file :: rest in
            Some (((print (MsgFound (length pdf_files)) ;;
                    print (MsgApiUrl (API_URL cfg)) ;;
                    reset_counters) st2).1,
                  pdf_files)
        | _ => None
        end
      else None
  | _ => None
  end.

(** The operating system lists every entry of a directory once. *)
Definition lists_faithfully (e : env) : Prop :=
  ∀ names, listing_order e names ≡ₚ names.

(** ** Vocabulary of the statements *)

(** The state in which the upload of a document is sent, and the one in
    which its answer is read. *)
Definition announced (total index : nat) (pdf_file : path) (st : state) : state :=
  mkState (st_fs st) (success_count st) (fail_count st)
          (EvPrint (MsgProcessing index total (path_name pdf_file)) :: trace st).

Definition uploaded (cfg : config) (total index : nat) (pdf_file : path)
    (content : string) (st : state) : state :=
  mkState (st_fs st) (success_count st) (fail_count st)
          (EvPost (API_URL cfg) (path_name pdf_file) content options 600
             :: trace (announced total index pdf_file st)).

(** The upload of [pdf_file], started in state [st], is answered by the
    response [r]. *)
Definition answered (e : env) (cfg : config) (total index : nat)
    (pdf_file : path) (st : state) (content : string) (r : response) : Prop :=
  node_at (st_fs st) pdf_file = Some (File content) ∧
  read_denied e pdf_file = false ∧
  http_post e (trace (announced total index pdf_file st)) (API_URL cfg)
    (path_name pdf_file) content options 600 = Returns r.

(** The response says success and carries the data object. *)
Definition reports_success (r : response) (result data : json) : Prop :=
  json_body r = Some result ∧
  (∃ flag, py_get result "success" JNull = inr flag ∧ truthy flag = true) ∧
  py_getitem result "data" = inr data.

(** The output file can be created. *)
Definition writable (e : env) (σ : fs) (out pdf_file : path) : Prop :=
  node_at σ out = Some Dir ∧ write_denied e (target out pdf_file) = false.

(** ** Sample worlds *)

Module Sample.
(** An environment that refuses nothing and in which the service gives
    the same two answers to every upload and every download. *)
Definition world (post get : outcome response) : env :=
  {| listing_order := λ names, names;
     mkdir_denied := λ _, false;
     read_denied := λ _, false;
     write_denied := λ _, false;
     http_post := λ _ _ _ _ _ _, post;
     http_get := λ _ _ _, get |}.

(** The same, with source files that cannot be opened. *)
Definition locked_world (post get : outcome response) : env :=
  {| listing_order := λ names, names;
     mkdir_denied := λ _, false;
     read_denied := λ _, true;
     write_denied := λ _, false;
     http_post := λ _ _ _ _ _ _, post;
     http_get := λ _ _ _, get |}.

Definition inline_result (md : json) : json :=
  JObj [("success", JBool true); ("data", JObj [("markdownContent", md)])].
Definition remote_result (md url : json) : json :=
  JObj [("success", JBool true);
        ("data", JObj [("markdownContent", md); ("markdownUrl", url)])].
Definition failure_result : json :=
  JObj [("success", JBool false); ("message", JStr "bad format")].

Definition reply (status : Z) (result : json) : response :=
  mkResponse status "" (Some result).
Definition page (status : Z) (body : string) : response :=
  mkResponse status body None.

Definition unreachable : outcome response := Raises ConnectionError.

Definition cfg : config :=
  {| INPUT_DIR := ["in"]; OUTPUT_DIR := ["out"]; API_URL := "http://host/api/convert" |}.

Definition a_pdf : path := ["in"; "a.pdf"].
Definition b_pdf : path := ["in"; "b.pdf"].

(** One document, nothing converted yet. *)
Definition one_pdf : fs :=
  {[ ["in"] := Dir; ["out"] := Dir; a_pdf := File "%PDF-a" ]}.
(** Two documents, the first one converted already (to an empty file). *)
Definition two_pdfs : fs :=
  {[ ["in"] := Dir; ["out"] := Dir; a_pdf := File "%PDF-a";
     b_pdf := File "%PDF-b"; ["out"; "a.md"] := File "" ]}.
(** Two documents with the same output name. *)
Definition dotted : fs :=
  {[ ["in"] := Dir; ["out"] := Dir; ["in"; ".pdf"] := File "%PDF-1";
     ["in"; ".pdf.pdf"] := File "%PDF-2" ]}.
(** No input directory. *)
Definition no_input : fs := ∅.
End Sample.

(** ** The claims that fail as they are worded *)




(** C6 as worded: without an input directory nothing is enumerated, no
    document is processed and no output directory is created. *)
Definition missing_input_creates_nothing (e : env) (cfg : config) (σ : fs) : Prop :=
  path_exists σ (INPUT_DIR cfg) = false →
  globs (trace (run e cfg σ)) = [] ∧
  documents (trace (run e cfg σ)) = [] ∧
  path_exists (st_fs (run e cfg σ)) (OUTPUT_DIR cfg) = path_exists σ (OUTPUT_DIR cfg).

(** The files of the input directory that match the pattern. *)
Definition matching_files (cfg : config) (σ : fs) : list path :=
  (λ name, INPUT_DIR cfg ++ [name]) <$>
  filter (λ name, matches_pdf name = true) (children σ (INPUT_DIR cfg)).

(** C5 as worded: [N - M] uploads and [M] skips. *)
Definition attempts_all_unconverted (e : env) (cfg : config) (σ : fs) : Prop :=
  let N := length (matching_files cfg σ) in
  let M := length (filter (λ f, has_output σ (OUTPUT_DIR cfg) f = true)
                          (matching_files cfg σ)) in
  length (posts (trace (run e cfg σ))) = (N - M)%nat ∧
  length (skips (trace (run e cfg σ))) = M.

(** ** Further observations and sample worlds *)

(** The uploads of a history, with all their arguments. *)
Definition upload_of (ev : event) : option (string * string * string * json * Z) :=
  match ev with
  | EvPost url filename content options timeout =>
      Some (url, filename, content, options, timeout)
  | _ => None
  end.
Definition uploads (h : history) : list (string * string * string * json * Z) :=
  omap upload_of h.

Module Scene.
(** The output location is below a regular file. *)
Definition blocked_cfg : config :=
{| INPUT_DIR := ["in"]; OUTPUT_DIR := ["note"; "md"]; API_URL := "http://host/api/convert" |}.
Definition blocked : fs :=
{[ ["in"] := Dir; ["note"] := File "text"; ["in"; "a.pdf"] := File "%PDF-a" ]}.

(** Input and output in the same directory. *)
Definition flat_cfg : config :=
{| INPUT_DIR := ["docs"]; OUTPUT_DIR := ["docs"]; API_URL := "http://host/api/convert" |}.
Definition flat : fs :=
{[ ["docs"] := Dir; ["docs"; "a.pdf"] := File "%PDF-a"; ["docs"; "b.pdf"] := File "%PDF-b" ]}.

(** A directory whose name matches the pattern. *)
Definition folder : fs :=
{[ ["in"] := Dir; ["out"] := Dir; ["in"; "a.pdf"] := Dir ]}.

(** The output location is a regular file. *)
Definition out_is_file : fs :=
{[ ["in"] := Dir; ["out"] := File "text"; ["in"; "a.pdf"] := File "%PDF-a" ]}.

(** A service that answers the first upload and is unreachable after. *)
Definition flaky (r : response) : env :=
{| listing_order := λ names, names;
   mkdir_denied := λ _, false;
   read_denied := λ _, false;
   write_denied := λ _, false;
   http_post := λ h _ _ _ _ _,
     match posts h with [] => Returns r | _ => Raises ConnectionError end;
   http_get := λ _ _ _, Raises ReadTimeout |}.
End Scene.

(** The progress lines of a history: index, total and name. *)
Definition progress_of (ev : event) : option (nat * nat * string) :=
  match ev with
  | EvPrint (MsgProcessing index total name) => Some (index, total, name)
  | _ => None
  end.
Definition progress (h : history) : list (nat * nat * string) := omap progress_of h.

(** * Properties *)

(** ** Paths and names *)

Lemma nonempty_string (s : string) : negb (String.eqb s "") = true → s ≠ "".
Proof. by intros H ->. Qed.

Lemma node_at_entry (σ : fs) (dir : path) (name : string) :
  node_at σ (dir ++ [name]) = σ !! (dir ++ [name]).
Proof. unfold node_at. by destruct dir. Qed.

Lemma path_exists_entry (σ : fs) (dir : path) (name : string) :
  path_exists σ (dir ++ [name]) = true ↔ is_Some (σ !! (dir ++ [name])).
Proof.
  unfold path_exists. rewrite node_at_entry.
  destruct (σ !! (dir ++ [name])); split; try done; by intros [? ?].
Qed.

Lemma path_name_entry (dir : path) (name : string) : path_name (dir ++ [name]) = name.
Proof. unfold path_name. apply last_last. Qed.

Lemma target_inj out f g : target out f = target out g → md_name f = md_name g.
Proof. unfold target. intros H. by apply app_inj_tail in H as [_ ?]. Qed.

Lemma md_name_of_name f g : path_name f = path_name g → md_name f = md_name g.
Proof. unfold md_name. by intros ->. Qed.

Lemma filter_ext_in {A} (P Q : A → Prop)
    `{!∀ x, Decision (P x)} `{!∀ x, Decision (Q x)} (l : list A) :
  (∀ x, x ∈ l → (P x ↔ Q x)) → filter P l = filter Q l.
Proof.
  induction l as [|a l IH]; [done|]. intros Hext.
  rewrite !filter_cons, IH by (intros x Hx; apply Hext; by right).
  assert (P a ↔ Q a) as Ha by (apply Hext; by left).
  repeat case_decide; tauto.
Qed.

(** ** One pass of the loop *)

Ltac break_match :=
  match goal with
  | |- context [match ?x with _ => _ end] =>
      lazymatch x with
      | context [match _ with _ => _ end] => fail
      | _ => destruct x eqn:?
      end
  end.

Ltac unfold_script :=
  unfold loop_body, try_block, except_block, handle_response, store_content,
    download_if_missing, requests_post, requests_get, response_json, open_rb,
    open_w, file_write, exists_, try_except, bind, lift, of_outcome, print, emit,
    incr_success, incr_fail, set_node, ret, raise, py_get, py_getitem in *.

Ltac delta_of t base :=
  lazymatch t with
  | base => constr:(@nil event)
  | ?x :: ?r => let d := delta_of r base in constr:(x :: d)
  end.

Ltac use_equations :=
  repeat match goal with
         | H : ?l = _ |- context [?l] => rewrite H
         end.

Ltac verdict_facts :=
  constructor; cbn; try reflexivity;
  unfold readable, has_output; use_equations; cbn;
  repeat split; try done;
  try (left; reflexivity); try (right; reflexivity);
  try (eexists; split; [|by rewrite ?insert_insert_eq]; by apply nonempty_string).

Ltac absurd_leaf :=
  match goal with
  | H : path_exists ?σ ?p = false, H' : node_at ?σ ?p = Some _ |- _ =>
      unfold path_exists in H; rewrite H' in H; discriminate
  end.

Ltac close_leaf :=
  first
    [ absurd_leaf
    | split; [reflexivity|];
      lazymatch goal with
      | |- ∃ v Δ, iteration _ _ _ ?st (mkState _ _ _ ?t) v Δ =>
          let d := delta_of t (trace st) in
          first [ solve [exists Skipped, d; verdict_facts]
                | solve [exists Succeeded, d; verdict_facts]
                | solve [exists Failed, d; verdict_facts] ]
      end ].

(** Every pass returns normally and ends in one of the three verdicts. *)
Lemma loop_body_iteration e cfg out total index pdf_file st :
  (loop_body e cfg out total index pdf_file st).2 = inr tt ∧
  ∃ v Δ, iteration e out pdf_file st (loop_body e cfg out total index pdf_file st).1 v Δ.
Proof.
  unfold_script. cbn [st_fs success_count fail_count trace].
  fold (target out pdf_file).
  repeat (break_match; simplify_eq/=).
  all: close_leaf.
Qed.

Lemma no_output_lookup σ out f :
  has_output σ out f = false → σ !! target out f = None.
Proof.
  unfold has_output, path_exists, target. rewrite node_at_entry.
  by destruct (σ !! _).
Qed.

(** A pass changes the file system at most at the document's target. *)
Lemma iteration_frame e out f st st' v Δ p :
  iteration e out f st st' v Δ → p ≠ target out f →
  st_fs st' !! p = st_fs st !! p.
Proof.
  intros [_ _ _ _ Hv] Hp. destruct v.
  - by destruct Hv as (_ & -> & _).
  - destruct Hv as (_ & (s & _ & ->) & _). by rewrite lookup_insert_ne.
  - destruct Hv as (_ & [-> | ->] & _); [done|]. by rewrite lookup_insert_ne.
Qed.

(** A pass leaves every node that is already there as it is. *)
Lemma iteration_keeps e out f st st' v Δ p :
  iteration e out f st st' v Δ → is_Some (st_fs st !! p) →
  st_fs st' !! p = st_fs st !! p.
Proof.
  intros Hit Hp. destruct (decide (p = target out f)) as [->|Hne].
  - destruct Hit as [_ _ _ _ Hv]. destruct v.
    + by destruct Hv as (_ & -> & _).
    + destruct Hv as (Hno & _). apply no_output_lookup in Hno.
      rewrite Hno in Hp. by destruct Hp.
    + destruct Hv as (Hno & _). apply no_output_lookup in Hno.
      rewrite Hno in Hp. by destruct Hp.
  - by eapply iteration_frame.
Qed.

(** ** The loop *)

(** After a pass the loop goes on with the next document. *)
Lemma for_loop_cons e cfg out total index pdf_file rest st :
  for_loop e cfg out total index (pdf_file :: rest) st =
  for_loop e cfg out total (S index) rest
    (loop_body e cfg out total index pdf_file st).1.
Proof.
  cbn [for_loop]. unfold bind.
  destruct (loop_body_iteration e cfg out total index pdf_file st) as [Hr _].
  destruct (loop_body e cfg out total index pdf_file st) as [st1 r].
  cbn in Hr |- *. by subst r.
Qed.

(** The loop never raises, and runs one pass per document. *)
Lemma for_loop_run e cfg out total index pdf_files st :
  (for_loop e cfg out total index pdf_files st).2 = inr tt ∧
  ∃ vs Δ, loop_run e out pdf_files st
            (for_loop e cfg out total index pdf_files st).1 vs Δ.
Proof.
  revert index st. induction pdf_files as [|f rest IH]; intros index st.
  - split; [done|]. exists [], []. constructor.
  - rewrite for_loop_cons.
    destruct (loop_body_iteration e cfg out total index f st) as [_ (v & Δ & Hit)].
    destruct (IH (S index) (loop_body e cfg out total index f st).1)
      as [Hr (vs & Δ' & Hrun)].
    split; [done|]. exists (v :: vs), (Δ' ++ Δ). eapply loop_pass; eassumption.
Qed.

Section loop_facts.
Context (e : env) (out : path).

Lemma loop_run_trace l st st' vs Δ :
  loop_run e out l st st' vs Δ → trace st' = Δ ++ trace st.
Proof.
  induction 1 as [|f rest st st1 st2 v vs Δ1 Δ2 Hit _ IH]; [done|].
  rewrite IH, (it_trace _ _ _ _ _ _ _ Hit). by rewrite (assoc _).
Qed.

Lemma loop_run_length l st st' vs Δ :
  loop_run e out l st st' vs Δ → length vs = length l.
Proof. induction 1; cbn; congruence. Qed.

Lemma loop_run_documents l st st' vs Δ :
  loop_run e out l st st' vs Δ →
  documents Δ = reverse (path_name <$> l) ∧ summaries Δ = [] ∧ globs Δ = [].
Proof.
  induction 1 as [|f rest st st1 st2 v vs Δ1 Δ2 Hit _ (IH1 & IH2 & IH3)]; [done|].
  unfold documents, summaries, globs in *. rewrite !omap_app, IH1, IH2, IH3.
  destruct Hit as [_ Hd Hs Hg _].
  unfold documents, summaries, globs in *. rewrite Hd, Hs, Hg.
  by rewrite fmap_cons, reverse_cons.
Qed.

(** Nodes that exist when the loop starts are never touched. *)
Lemma loop_run_keeps l st st' vs Δ p :
  loop_run e out l st st' vs Δ → is_Some (st_fs st !! p) →
  st_fs st' !! p = st_fs st !! p.
Proof.
  induction 1 as [|f rest st st1 st2 v vs Δ1 Δ2 Hit _ IH]; [done|].
  intros Hp. pose proof (iteration_keeps _ _ _ _ _ _ _ p Hit Hp) as Hk.
  rewrite IH; [done|]. by rewrite Hk.
Qed.

(** The loop changes the file system at the targets of its documents
    only. *)
Lemma loop_run_frame l st st' vs Δ p :
  loop_run e out l st st' vs Δ → (∀ f, f ∈ l → p ≠ target out f) →
  st_fs st' !! p = st_fs st !! p.
Proof.
  induction 1 as [|f rest st st1 st2 v vs Δ1 Δ2 Hit _ IH]; [done|].
  intros Hp. rewrite IH.
  - eapply iteration_frame; [done|]. apply Hp. by left.
  - intros g Hg. apply Hp. by right.
Qed.

Lemma loop_run_exists l st st' vs Δ p :
  loop_run e out l st st' vs Δ →
  path_exists (st_fs st) p = true → path_exists (st_fs st') p = true.
Proof.
  intros Hrun. unfold path_exists, node_at. destruct p as [|s p]; [done|].
  destruct (st_fs st !! (s :: p)) eqn:Hp; [|done]. intros _.
  erewrite loop_run_keeps; [by rewrite Hp|done|by rewrite Hp].
Qed.

(** The counters count the verdicts. *)
Lemma loop_run_counts l st st' vs Δ :
  loop_run e out l st st' vs Δ →
  success_count st' = (success_count st + count_verdict Succeeded vs)%nat ∧
  fail_count st' = (fail_count st + count_verdict Failed vs)%nat ∧
  length (skips Δ) = count_verdict Skipped vs.
Proof.
  induction 1 as [|f rest st st1 st2 v vs Δ1 Δ2 Hit _ (IH1 & IH2 & IH3)].
  { cbn. lia. }
  unfold skips in *. rewrite omap_app, length_app, IH1, IH2, IH3.
  destruct Hit as [_ _ _ _ Hv].
  unfold count_verdict. rewrite !filter_cons.
  destruct v; cbn in Hv; destruct_and!;
    repeat case_decide; try done; unfold skips in *;
    repeat match goal with H : _ = _ |- _ => rewrite H end; cbn; lia.
Qed.

Lemma count_verdict_total vs :
  (count_verdict Skipped vs + count_verdict Succeeded vs + count_verdict Failed vs)%nat
  = length vs.
Proof.
  unfold count_verdict. induction vs as [|v vs IH]; [done|].
  rewrite !filter_cons. destruct v; repeat case_decide; try done; cbn; lia.
Qed.
End loop_facts.

Section loop_verdicts.
Context (e : env) (out : path).

(** When every document already has its output, the loop only skips. *)
Lemma loop_run_all_skipped l st st' vs Δ :
  loop_run e out l st st' vs Δ →
  (∀ f, f ∈ l → has_output (st_fs st) out f = true) →
  st_fs st' = st_fs st ∧
  success_count st' = success_count st ∧ fail_count st' = fail_count st ∧
  posts Δ = [] ∧ gets Δ = [] ∧ skips Δ = reverse (md_name <$> l).
Proof.
  induction 1 as [|f rest st st1 st2 v vs Δ1 Δ2 Hit _ IH]; [done|].
  intros Hall. destruct Hit as [_ _ _ _ Hv].
  assert (has_output (st_fs st) out f = true) as Hf by (apply Hall; by left).
  destruct v; cbn in Hv; [|destruct Hv as (Hno & _); congruence..].
  destruct Hv as (_ & Hfs & Hs & Hfl & Hsk & Hp & Hg & _).
  destruct IH as (IH1 & IH2 & IH3 & IH4 & IH5 & IH6).
  { intros g Hg'. rewrite Hfs. apply Hall. by right. }
  unfold posts, gets, skips in *.
  rewrite !omap_app, IH4, IH5, IH6, Hp, Hg, Hsk, fmap_cons, reverse_cons.
  repeat split; congruence.
Qed.

Lemma count_verdict_all v vs :
  count_verdict v vs = length vs → Forall (λ w, w = v) vs.
Proof.
  unfold count_verdict. induction vs as [|w vs IH]; [constructor|].
  rewrite filter_cons. case_decide as Hw; cbn; intros Hlen.
  - constructor; [done|]. apply IH. lia.
  - pose proof (length_filter (λ w, w = v) vs). lia.
Qed.

(** A document that succeeded has its output when the loop ends. *)
Lemma loop_run_succeeded_outputs l st st' vs Δ :
  loop_run e out l st st' vs Δ → Forall (λ v, v = Succeeded) vs →
  ∀ f, f ∈ l → has_output (st_fs st') out f = true.
Proof.
  induction 1 as [|f rest st st1 st2 v vs Δ1 Δ2 Hit Hrun IH].
  { intros _ f Hf. by apply elem_of_nil in Hf. }
  intros Hall g Hg. apply Forall_cons in Hall as [-> Hall].
  apply elem_of_cons in Hg as [->|Hg]; [|by apply IH].
  destruct Hit as [_ _ _ _ (_ & (s & _ & Hfs) & _)].
  unfold has_output. eapply loop_run_exists; [done|].
  unfold path_exists, target. rewrite node_at_entry, Hfs.
  fold (target out f). by rewrite lookup_insert_eq.
Qed.

(** With pairwise distinct output names, the documents skipped are
    those that had their output when the loop started. *)
Lemma loop_run_skips l st st' vs Δ :
  loop_run e out l st st' vs Δ → NoDup (md_name <$> l) →
  skips Δ = reverse (md_name <$> filter (λ f, has_output (st_fs st) out f = true) l).
Proof.
  induction 1 as [|f rest st st1 st2 v vs Δ1 Δ2 Hit Hrun IH]; [done|].
  rewrite fmap_cons. intros [Hf Hnd]%NoDup_cons.
  unfold skips in *. rewrite omap_app, (IH Hnd). clear IH.
  assert (filter (λ g, has_output (st_fs st1) out g = true) rest
          = filter (λ g, has_output (st_fs st) out g = true) rest) as ->.
  { apply filter_ext_in. intros g Hg.
    unfold has_output, path_exists, target. rewrite !node_at_entry.
    fold (target out g). erewrite iteration_frame; [done|done|].
    intros Heq%target_inj. apply Hf. rewrite <- Heq.
    by apply list_elem_of_fmap_2. }
  rewrite filter_cons. destruct Hit as [_ _ _ _ Hv].
  destruct v; cbn in Hv; destruct_and!; case_decide; try congruence;
    repeat match goal with H : omap skipped _ = _ |- _ => rewrite H end;
    unfold skips in *;
    repeat match goal with H : omap skipped _ = _ |- _ => rewrite H end;
    by rewrite ?fmap_cons, ?reverse_cons, ?app_nil_r.
Qed.

(** Every upload is for a document that had no output when the loop
    started. *)
Lemma loop_run_posts_unconverted l st st' vs Δ name :
  loop_run e out l st st' vs Δ → name ∈ posts Δ →
  ∃ f, f ∈ l ∧ path_name f = name ∧ has_output (st_fs st) out f = false.
Proof.
  induction 1 as [|f rest st st1 st2 v vs Δ1 Δ2 Hit Hrun IH].
  { intros Hn. by apply elem_of_nil in Hn. }
  unfold posts in *. rewrite omap_app. intros [Hn|Hn]%elem_of_app.
  - destruct (IH Hn) as (g & Hg & Hname & Hno). exists g.
    split; [by right|]. split; [done|].
    destruct (has_output (st_fs st) out g) eqn:Hex; [|done].
    unfold has_output in *.
    eapply (loop_run_exists e out [f]) in Hex; [|].
    2:{ eapply (loop_pass e out f [] st st1 st1 v [] Δ1 []); [done|constructor]. }
    congruence.
  - exists f. split; [by left|].
    destruct Hit as [_ _ _ _ Hv]. unfold posts in *.
    destruct v; cbn in Hv; destruct_and!;
      repeat match goal with H : omap posted _ = _ |- _ => rewrite H in Hn end.
    + by apply elem_of_nil in Hn.
    + by apply list_elem_of_singleton in Hn as ->.
    + destruct (readable _ _ _); [|by apply elem_of_nil in Hn].
      by apply list_elem_of_singleton in Hn as ->.
Qed.

(** No retries: the uploads are a subsequence of the documents. *)
Lemma loop_run_posts_sublist l st st' vs Δ :
  loop_run e out l st st' vs Δ → posts Δ `sublist_of` documents Δ.
Proof.
  induction 1 as [|f rest st st1 st2 v vs Δ1 Δ2 Hit Hrun IH]; [done|].
  unfold posts, documents in *. rewrite !omap_app. apply sublist_app; [done|].
  destruct Hit as [_ Hd _ _ Hv]. unfold posts, documents in *. rewrite Hd.
  destruct v; cbn in Hv; destruct_and!;
    repeat match goal with H : omap posted _ = _ |- _ => rewrite H end;
    try destruct (readable _ _ _); try done; by apply sublist_nil_l.
Qed.
End loop_verdicts.

(** ** Preparing the output directory *)

Lemma mkdir_from_spec e done todo st :
  trace (mkdir_from e done todo st).1 = trace st ∧
  success_count (mkdir_from e done todo st).1 = success_count st ∧
  fail_count (mkdir_from e done todo st).1 = fail_count st ∧
  (∀ p, is_Some (st_fs st !! p) →
        st_fs (mkdir_from e done todo st).1 !! p = st_fs st !! p) ∧
  (∀ p, ¬ p `prefix_of` done ++ todo →
        st_fs (mkdir_from e done todo st).1 !! p = st_fs st !! p) ∧
  ((mkdir_from e done todo st).2 = inr tt → todo ≠ [] →
   is_Some (st_fs (mkdir_from e done todo st).1 !! (done ++ todo))).
Proof.
  revert done st. induction todo as [|seg todo IH]; intros done st.
  { cbn. repeat split; done. }
  cbn [mkdir_from]. rewrite node_at_entry.
  replace (done ++ seg :: todo) with ((done ++ [seg]) ++ todo)
    by (by rewrite <- app_assoc).
  destruct (st_fs st !! (done ++ [seg])) as [[|content]|] eqn:Hp.
  - destruct (IH (done ++ [seg]) st) as (H1 & H2 & H3 & H4 & H5 & H6).
    repeat split; try done. intros Hr _.
    destruct todo as [|seg' todo]; [|by apply H6].
    cbn. rewrite app_nil_r, Hp. by eexists.
  - repeat split; done.
  - destruct (mkdir_denied e (done ++ [seg])); [repeat split; done|].
    unfold bind, set_node. cbn [fst snd].
    set (st1 := mkState _ _ _ _).
    destruct (IH (done ++ [seg]) st1) as (H1 & H2 & H3 & H4 & H5 & H6).
    assert (∀ p, p ≠ done ++ [seg] → st_fs st1 !! p = st_fs st !! p) as Hne.
    { intros p Hne. unfold st1. cbn. by rewrite lookup_insert_ne. }
    repeat split; try done.
    + intros p Hsome. rewrite H4.
      * apply Hne. intros ->. rewrite Hp in Hsome. by destruct Hsome.
      * rewrite Hne; [done|]. intros ->. rewrite Hp in Hsome. by destruct Hsome.
    + intros p Hpre. rewrite H5 by done. apply Hne. intros ->.
      apply Hpre. by apply prefix_app_r.
    + intros Hr _. destruct todo as [|seg' todo]; [|by apply H6].
      cbn. rewrite app_nil_r. unfold st1. cbn. rewrite lookup_insert_eq. by eexists.
Qed.

(** What [ensure_output_dir] guarantees: it never raises, leaves the
    counters and every existing node alone, touches ancestors of the
    output directory only, and answers [true] only when the directory is
    there. *)
Lemma ensure_output_dir_spec e cfg st :
  ∃ st1 ready Δ,
    ensure_output_dir e cfg st = (st1, inr ready) ∧
    trace st1 = Δ ++ trace st ∧
    posts Δ = [] ∧ gets Δ = [] ∧ skips Δ = [] ∧ documents Δ = [] ∧
    summaries Δ = [] ∧ globs Δ = [] ∧
    success_count st1 = success_count st ∧ fail_count st1 = fail_count st ∧
    (∀ p, is_Some (st_fs st !! p) → st_fs st1 !! p = st_fs st !! p) ∧
    (∀ p, ¬ p `prefix_of` OUTPUT_DIR cfg → st_fs st1 !! p = st_fs st !! p) ∧
    (ready = true → path_exists (st_fs st1) (OUTPUT_DIR cfg) = true) ∧
    (path_exists (st_fs st) (OUTPUT_DIR cfg) = true → st1 = st ∧ ready = true) ∧
    (ready = false → ∃ ex, Δ = [EvPrint (MsgCannotCreateOutputDir ex)]).
Proof.
  unfold ensure_output_dir, exists_, bind, try_except, mkdir_parents.
  destruct (path_exists (st_fs st) (OUTPUT_DIR cfg)) eqn:Hex; cbn [negb].
  { exists st, true, []. repeat split; done. }
  destruct (mkdir_from_spec e [] (OUTPUT_DIR cfg) st) as (H1 & H2 & H3 & H4 & H5 & H6).
  destruct (mkdir_from e [] (OUTPUT_DIR cfg) st) as [st1 [ex|[]]]; cbn in *.
  - eexists _, false, [EvPrint (MsgCannotCreateOutputDir ex)].
    split; [reflexivity|]. cbn. rewrite H1. repeat split; try done.
    intros _. by eexists.
  - eexists _, true, [EvPrint (MsgCreatedOutputDir (OUTPUT_DIR cfg))].
    split; [reflexivity|]. cbn. rewrite H1. repeat split; try done.
    intros _. unfold path_exists, node_at.
    destruct (OUTPUT_DIR cfg) as [|s o] eqn:Ho; [done|].
    destruct (H6 eq_refl) as [n Hn]; [done|]. by rewrite Hn.
Qed.

Lemma target_not_ancestor out f : ¬ target out f `prefix_of` out.
Proof.
  intros Hpre%prefix_length. unfold target in Hpre.
  rewrite length_app in Hpre. cbn in Hpre. lia.
Qed.

(** ** Enumerating the input directory *)

Lemma child_name_Some dir p name :
  child_name dir p = Some name ↔ p = dir ++ [name].
Proof.
  revert p. induction dir as [|d dir IH]; intros p; cbn.
  - destruct p as [|s [|s' p]]; split; intros; simplify_eq; done.
  - destruct p as [|s p]; [split; intros; simplify_eq|].
    destruct (String.eqb_spec d s) as [->|Hne].
    + rewrite IH. split; intros; simplify_eq; done.
    + split; intros; simplify_eq.
Qed.

Lemma elem_of_children σ dir name :
  name ∈ children σ dir ↔ is_Some (σ !! (dir ++ [name])).
Proof.
  unfold children. rewrite list_elem_of_omap. split.
  - intros (p & Hp & Hc). apply child_name_Some in Hc as ->.
    by apply elem_of_elements, elem_of_dom in Hp.
  - intros Hs. exists (dir ++ [name]). split.
    + by apply elem_of_elements, elem_of_dom.
    + by apply child_name_Some.
Qed.

Lemma NoDup_children σ dir : NoDup (children σ dir).
Proof.
  unfold children. generalize (NoDup_elements (dom σ)).
  induction (elements (dom σ)) as [|p l IH]; [constructor|].
  intros [Hp Hnd]%NoDup_cons. cbn.
  destruct (child_name dir p) as [name|] eqn:Hc; [|by apply IH].
  apply NoDup_cons. split; [|by apply IH].
  intros (q & Hq & Hcq)%list_elem_of_omap.
  apply child_name_Some in Hc, Hcq. congruence.
Qed.

Lemma glob_pdf_eq e dir st :
  glob_pdf e dir st =
  (mkState (st_fs st) (success_count st) (fail_count st) (EvGlob dir :: trace st),
   inr ((λ name, dir ++ [name]) <$>
        filter (λ name, matches_pdf name = true)
               (listing_order e (children (st_fs st) dir)))).
Proof. reflexivity. Qed.

(** ** The whole run *)

(** A run that reaches the loop runs it from [loop_entry] and prints the
    summary. *)
Lemma run_loop_entry e cfg σ st0 files :
  loop_entry e cfg σ = Some (st0, files) →
  convert_pdf_to_md e cfg (initial σ) =
  summary cfg (for_loop e cfg (OUTPUT_DIR cfg) (length files) 1 files st0).1.
Proof.
  intros H. unfold loop_entry in H.
  unfold convert_pdf_to_md, bind, exists_.
  destruct (ensure_output_dir e cfg (initial σ)) as [st1 [ex|[|]]]; try done.
  cbn [negb]. destruct (path_exists (st_fs st1) (INPUT_DIR cfg)); [|done].
  cbn [negb].
  destruct (glob_pdf e (INPUT_DIR cfg) st1) as [st2 [ex|[|f rest]]]; try done.
  injection H as <- <-.
  unfold bind, print, emit, reset_counters.
  cbn [fst snd st_fs success_count fail_count trace length].
  change (S (length rest)) with (length (f :: rest)).
  generalize (f :: rest). intros files.
  match goal with
  | |- context [for_loop ?a ?b ?c ?d ?i ?l ?s] =>
      destruct (for_loop_run a b c d i l s) as [Hr _];
      destruct (for_loop a b c d i l s) as [st3 r]
  end.
  cbn [fst snd] in Hr |- *. by subst r.
Qed.

Lemma loop_entry_state e cfg σ st0 files :
  loop_entry e cfg σ = Some (st0, files) →
  ∃ st1,
    ensure_output_dir e cfg (initial σ) = (st1, inr true) ∧
    path_exists (st_fs st1) (INPUT_DIR cfg) = true ∧
    files = (λ name, INPUT_DIR cfg ++ [name]) <$>
            filter (λ name, matches_pdf name = true)
                   (listing_order e (children (st_fs st1) (INPUT_DIR cfg))) ∧
    files ≠ [] ∧
    st_fs st0 = st_fs st1 ∧ success_count st0 = 0%nat ∧ fail_count st0 = 0%nat ∧
    posts (trace st0) = [] ∧ gets (trace st0) = [] ∧ skips (trace st0) = [] ∧
    documents (trace st0) = [] ∧ summaries (trace st0) = [] ∧
    globs (trace st0) = [INPUT_DIR cfg].
Proof.
  unfold loop_entry.
  destruct (ensure_output_dir_spec e cfg (initial σ))
    as (st1 & ready & Δ & -> & Ht & Hp & Hg & Hs & Hd & Hsm & Hgl & _).
  destruct ready; [|done].
  destruct (path_exists (st_fs st1) (INPUT_DIR cfg)) eqn:Hin; [|done].
  rewrite glob_pdf_eq.
  destruct (_ <$> _) as [|f rest] eqn:Hfiles; [done|].
  intros [= <- <-]. exists st1. split; [done|]. split; [done|].
  split; [done|]. split; [done|]. cbn. rewrite Ht. cbn. rewrite app_nil_r.
  unfold posts, gets, skips, documents, summaries, globs in *. cbn.
  rewrite Hp, Hg, Hs, Hd, Hsm, Hgl. repeat split; done.
Qed.

(** A run that stops before the loop prints one notice, and nothing
    else happens. *)
Lemma run_early_exit e cfg σ :
  loop_entry e cfg σ = None →
  (convert_pdf_to_md e cfg (initial σ)).2 = inr tt ∧
  success_count (run e cfg σ) = 0%nat ∧ fail_count (run e cfg σ) = 0%nat ∧
  posts (trace (run e cfg σ)) = [] ∧ gets (trace (run e cfg σ)) = [] ∧
  skips (trace (run e cfg σ)) = [] ∧ documents (trace (run e cfg σ)) = [] ∧
  summaries (trace (run e cfg σ)) = [] ∧
  (∀ p, is_Some (σ !! p) → st_fs (run e cfg σ) !! p = σ !! p) ∧
  (∀ p, ¬ p `prefix_of` OUTPUT_DIR cfg → st_fs (run e cfg σ) !! p = σ !! p) ∧
  ∃ t,
    (trace (run e cfg σ) = EvPrint (MsgInputDirMissing (INPUT_DIR cfg)) :: t ∧
     globs t = []) ∨
    trace (run e cfg σ) = EvPrint (MsgNoPdfFound (INPUT_DIR cfg)) :: t ∨
    ∃ ex, trace (run e cfg σ) = EvPrint (MsgCannotCreateOutputDir ex) :: t.
Proof.
  intros H. unfold loop_entry in H.
  unfold run, convert_pdf_to_md, bind, exists_.
  destruct (ensure_output_dir_spec e cfg (initial σ))
    as (st1 & ready & Δ & Heq & Ht & Hp & Hg & Hs & Hd & Hsm & Hgl & Hsc & Hfc
        & Hkeep & Hframe & _ & _ & Hno).
  rewrite Heq in H |- *. cbn in Ht, Hsc, Hfc. rewrite app_nil_r in Ht.
  unfold posts, gets, skips, documents, summaries, globs in *.
  destruct ready; cbn [negb].
  - destruct (path_exists (st_fs st1) (INPUT_DIR cfg)); cbn [negb].
    + rewrite glob_pdf_eq in H |- *. cbn [fst snd] in *.
      destruct (_ <$> _) as [|f rest]; [|done].
      cbn. rewrite Ht, Hp, Hg, Hs, Hd, Hsm. repeat split; try done.
      eexists. right. left. done.
    + cbn. rewrite Ht, Hp, Hg, Hs, Hd, Hsm. repeat split; try done.
      eexists. left. done.
  - destruct (Hno eq_refl) as [ex ->]. cbn. rewrite Ht. cbn.
    repeat split; try done. eexists. right. right. by eexists.
Qed.

(** ** The claims *)

Ltac unfold_control :=
  unfold loop_body, try_block, except_block, handle_response, store_content,
    download_if_missing, requests_post, requests_get, response_json, open_rb,
    open_w, file_write, exists_, try_except, bind, lift, of_outcome, print, emit,
    incr_success, incr_fail, set_node, ret, raise.

Ltac forward :=
  repeat (progress (use_equations; cbn [st_fs success_count fail_count trace
                                        fst snd negb truthy Z.eqb Pos.eqb])).

Lemma no_output_exists σ out f :
  has_output σ out f = false → path_exists σ (out ++ [md_name f]) = false.
Proof. done. Qed.

Lemma no_output_node σ out f :
  has_output σ out f = false → node_at σ (out ++ [md_name f]) = None.
Proof. unfold has_output, path_exists, target. by destruct (node_at _ _). Qed.

Lemma truthy_nonempty s : s ≠ "" → negb (String.eqb s "") = true.
Proof. intros Hs. by destruct (String.eqb_spec s ""). Qed.

(** The download only adds to the history. *)
Lemma download_if_missing_state e result md_content st :
  ∃ Δ,
    (download_if_missing e result md_content st).1
    = mkState (st_fs st) (success_count st) (fail_count st) (Δ ++ trace st).
Proof.
  unfold_control. unfold py_get, py_getitem.
  repeat (break_match; simplify_eq/=);
    match goal with
    | |- ∃ Δ, mkState _ _ _ ?t = _ =>
        let d := delta_of t (trace st) in by exists d
    | |- ∃ Δ, ?s = _ => exists []; by destruct s
    end.
Qed.


(** C4.  A document whose candidate Output Document already exists is
    skipped: the pass prints the notice, leaves the success counter, the
    failure counter and the file system as they are, and the loop goes on
    with the next document.  The outcome differs from success and from
    failure, because a pass over a document without an output always
    moves exactly one of the two counters. *)
Theorem skip_leaves_counters e cfg out total index pdf_file rest st :
  has_output (st_fs st) out pdf_file = true →
  loop_body e cfg out total index pdf_file st =
    (mkState (st_fs st) (success_count st) (fail_count st)
       (EvPrint (MsgSkipped (md_name pdf_file))
          :: EvPrint (MsgProcessing index total (path_name pdf_file))
          :: trace st), inr tt) ∧
  for_loop e cfg out total index (pdf_file :: rest) st =
    for_loop e cfg out total (S index) rest
      (loop_body e cfg out total index pdf_file st).1 ∧
  ∀ st2, has_output (st_fs st2) out pdf_file = false →
    let st3 := (loop_body e cfg out total index pdf_file st2).1 in
    (success_count st3 = S (success_count st2) ∧ fail_count st3 = fail_count st2) ∨
    (success_count st3 = success_count st2 ∧ fail_count st3 = S (fail_count st2)).
Proof.
  intros Hex. split; [|split].
  - unfold has_output, target in Hex. unfold_control. by forward.
  - apply for_loop_cons.
  - intros st2 Hno st3.
    destruct (loop_body_iteration e cfg out total index pdf_file st2)
      as [_ (v & Δ & [_ _ _ _ Hv])].
    fold st3 in Hv. destruct v; cbn in Hv; destruct_and!.
    + congruence.
    + by left.
    + by right.
Qed.








(** C9.  When the text the script ends up with is the empty string,
    whether it came inline or from a successful download, the pass counts
    one failure, reports "no content" and writes nothing; the outcome is
    the one of a response that supplied no content at all ([None]). *)
Theorem empty_text_counts_as_failure e cfg out total index pdf_file st content r
    result data inline final :
  has_output (st_fs st) out pdf_file = false →
  answered e cfg total index pdf_file st content r →
  status_code r = 200 →
  reports_success r result data →
  py_get data "markdownContent" JNull = inr inline →
  (download_if_missing e result inline
     (uploaded cfg total index pdf_file content st)).2 = inr final →
  final = JStr "" ∨ final = JNull →
  let st' := (loop_body e cfg out total index pdf_file st).1 in
  st_fs st' = st_fs st ∧
  success_count st' = success_count st ∧
  fail_count st' = S (fail_count st) ∧
  head (trace st') = Some (EvPrint MsgNoContent).
Proof.
  intros Hno (Hsrc & Hread & Hpost) Hst (Hbody & (flag & Hflag & Htrue) & Hdata)
    Hmd Hfinal Hempty.
  pose proof (no_output_exists _ _ _ Hno) as Hex.
  assert (truthy final = false) as Hfalsy by (by destruct Hempty as [-> | ->]).
  unfold uploaded, announced in *. cbn [trace] in Hpost, Hfinal.
  unfold loop_body, try_block, except_block, handle_response, store_content,
    requests_post, response_json, open_rb, exists_, try_except, bind, lift,
    of_outcome, print, emit, incr_success, incr_fail, ret, raise.
  forward.
  match goal with
  | |- context [download_if_missing ?a ?b ?c ?s] =>
      destruct (download_if_missing_state a b c s) as [Δ HΔ];
      destruct (download_if_missing a b c s) as [st1 res]
  end.
  cbn [fst snd] in HΔ, Hfinal. subst st1 res. cbn. rewrite Hfalsy. cbn. done.
Qed.

Lemma empty_text_counts_as_failure_witness :
  let e := Sample.world
             (Returns (Sample.reply 200 (Sample.remote_result (JStr "") (JStr "http://host/a.md"))))
             (Returns (Sample.page 200 "")) in
  let st' := (loop_body e Sample.cfg ["out"] 1 1 Sample.a_pdf (initial Sample.one_pdf)).1 in
  st_fs st' = Sample.one_pdf ∧ success_count st' = 0%nat ∧ fail_count st' = 1%nat ∧
  head (trace st') = Some (EvPrint MsgNoContent).
Proof.
  intros e.
  apply (empty_text_counts_as_failure e Sample.cfg ["out"] 1 1 Sample.a_pdf
           (initial Sample.one_pdf) "%PDF-a"
           (Sample.reply 200 (Sample.remote_result (JStr "") (JStr "http://host/a.md")))
           (Sample.remote_result (JStr "") (JStr "http://host/a.md"))
           (JObj [("markdownContent", JStr ""); ("markdownUrl", JStr "http://host/a.md")])
           (JStr "") (JStr "")).
  - reflexivity.
  - repeat split; reflexivity.
  - reflexivity.
  - split; [reflexivity|]. split; [|reflexivity]. by exists (JBool true).
  - reflexivity.
  - reflexivity.
  - by left.
Defined.

(** ** Whole runs *)

Lemma run_completed e cfg σ st0 files :
  loop_entry e cfg σ = Some (st0, files) →
  ∃ st3 vs Δ,
    loop_run e (OUTPUT_DIR cfg) files st0 st3 vs Δ ∧
    convert_pdf_to_md e cfg (initial σ) =
      (mkState (st_fs st3) (success_count st3) (fail_count st3)
         (EvPrint (MsgSummary (success_count st3) (fail_count st3) (OUTPUT_DIR cfg))
            :: trace st3), inr tt).
Proof.
  intros H. rewrite (run_loop_entry _ _ _ _ _ H).
  destruct (for_loop_run e cfg (OUTPUT_DIR cfg) (length files) 1 files st0)
    as [_ (vs & Δ & Hrun)].
  by eexists _, vs, Δ.
Qed.


(** A run leaves every node that exists at its start as it is. *)
Lemma run_keeps e cfg σ p :
  is_Some (σ !! p) → st_fs (run e cfg σ) !! p = σ !! p.
Proof.
  intros Hp. destruct (loop_entry e cfg σ) as [[st0 files]|] eqn:H.
  - destruct (run_completed _ _ _ _ _ H) as (st3 & vs & Δ & Hrun & Heq).
    unfold run. rewrite Heq. cbn.
    destruct (loop_entry_state _ _ _ _ _ H) as (st1 & Hens & _ & _ & _ & Hfs & _).
    destruct (ensure_output_dir_spec e cfg (initial σ))
      as (st1' & ready & Δ' & Heq' & _ & _ & _ & _ & _ & _ & _ & _ & _ & Hkeep & _).
    rewrite Hens in Heq'. injection Heq' as <- <-.
    specialize (Hkeep p Hp). cbn in Hkeep.
    erewrite loop_run_keeps; [|done|]; rewrite Hfs, Hkeep; done.
  - destruct (run_early_exit _ _ _ H) as (_ & _ & _ & _ & _ & _ & _ & _ & Hk & _).
    by apply Hk.
Qed.



(** C6, amended.  If the input location does not exist and is not an
    ancestor of the output location, the run stops before it enumerates
    any file: no document is processed and no request is sent.  The
    output directory has been prepared before that: it exists at the end
    whenever its creation did not fail, and nothing else is touched. *)
Theorem missing_input_stops_run e cfg σ :
  path_exists σ (INPUT_DIR cfg) = false →
  ¬ INPUT_DIR cfg `prefix_of` OUTPUT_DIR cfg →
  globs (trace (run e cfg σ)) = [] ∧
  documents (trace (run e cfg σ)) = [] ∧
  posts (trace (run e cfg σ)) = [] ∧ gets (trace (run e cfg σ)) = [] ∧
  success_count (run e cfg σ) = 0%nat ∧ fail_count (run e cfg σ) = 0%nat ∧
  (∀ p, ¬ p `prefix_of` OUTPUT_DIR cfg → st_fs (run e cfg σ) !! p = σ !! p) ∧
  ((∃ ex, head (trace (run e cfg σ)) = Some (EvPrint (MsgCannotCreateOutputDir ex))) ∨
   (head (trace (run e cfg σ)) = Some (EvPrint (MsgInputDirMissing (INPUT_DIR cfg))) ∧
    path_exists (st_fs (run e cfg σ)) (OUTPUT_DIR cfg) = true)).
Proof.
  intros Hin Hpre.
  destruct (ensure_output_dir_spec e cfg (initial σ))
    as (st1 & ready & Δ & Heq & Ht & Hp & Hg & Hs & Hd & Hsm & Hgl & Hsc & Hfc
        & Hkeep & Hframe & Hready & _ & Hno).
  assert (path_exists (st_fs st1) (INPUT_DIR cfg) = false) as Hin1.
  { unfold path_exists, node_at in *.
    destruct (INPUT_DIR cfg) as [|s i] eqn:Hi; [done|].
    by rewrite (Hframe (s :: i) Hpre). }
  unfold run, convert_pdf_to_md, bind, exists_. rewrite Heq.
  cbn in Ht, Hsc, Hfc, Hframe. rewrite app_nil_r in Ht.
  unfold posts, gets, skips, documents, summaries, globs in *.
  destruct ready; cbn [negb].
  - rewrite Hin1. cbn. rewrite Ht, Hp, Hg, Hd, Hgl.
    repeat split; try done. right. split; [done|]. by apply Hready.
  - destruct (Hno eq_refl) as [ex ->]. cbn. rewrite Ht. cbn.
    repeat split; try done. left. by exists ex.
Qed.

Lemma missing_input_stops_run_witness :
  let r := run (Sample.world Sample.unreachable Sample.unreachable) Sample.cfg Sample.no_input in
  globs (trace r) = [] ∧ documents (trace r) = [] ∧
  posts (trace r) = [] ∧ gets (trace r) = [] ∧
  success_count r = 0%nat ∧ fail_count r = 0%nat ∧
  (∀ p, ¬ p `prefix_of` OUTPUT_DIR Sample.cfg → st_fs r !! p = Sample.no_input !! p) ∧
  ((∃ ex, head (trace r) = Some (EvPrint (MsgCannotCreateOutputDir ex))) ∨
   (head (trace r) = Some (EvPrint (MsgInputDirMissing (INPUT_DIR Sample.cfg))) ∧
    path_exists (st_fs r) (OUTPUT_DIR Sample.cfg) = true)).
Proof.
  apply (missing_input_stops_run (Sample.world Sample.unreachable Sample.unreachable)
           Sample.cfg Sample.no_input).
  - reflexivity.
  - intros [k Hk]. discriminate Hk.
Defined.

(** C6 as worded fails: with the shipped settings and no input
    directory, the output directory is created (and with it the input
    directory, its parent, which is then enumerated). *)
Lemma missing_input_still_creates_output :
  ¬ missing_input_creates_nothing
      (Sample.world Sample.unreachable Sample.unreachable) default_config Sample.no_input.
Proof.
  intros H. destruct (H eq_refl) as (_ & _ & Hout).
  vm_compute in Hout. discriminate.
Qed.

(** Preparing the output directory does not change which documents have
    an output. *)
Lemma entry_has_output e cfg σ st0 files f :
  loop_entry e cfg σ = Some (st0, files) →
  has_output (st_fs st0) (OUTPUT_DIR cfg) f = has_output σ (OUTPUT_DIR cfg) f.
Proof.
  intros H.
  destruct (loop_entry_state _ _ _ _ _ H) as (st1 & Hens & _ & _ & _ & Hfs & _).
  destruct (ensure_output_dir_spec e cfg (initial σ))
    as (st1' & ready & Δ' & Heq' & _ & _ & _ & _ & _ & _ & _ & _ & _ & _ & Hframe & _).
  rewrite Hens in Heq'. injection Heq' as <- <-.
  unfold has_output, path_exists, target. rewrite !node_at_entry, Hfs.
  fold (target (OUTPUT_DIR cfg) f).
  by rewrite (Hframe _ (target_not_ancestor _ _)).
Qed.

Lemma entry_readable e cfg σ st0 files f :
  loop_entry e cfg σ = Some (st0, files) →
  readable e σ f = true → readable e (st_fs st0) f = true.
Proof.
  intros H.
  destruct (loop_entry_state _ _ _ _ _ H) as (st1 & Hens & _ & _ & _ & Hfs & _).
  destruct (ensure_output_dir_spec e cfg (initial σ))
    as (st1' & ready & Δ' & Heq' & _ & _ & _ & _ & _ & _ & _ & _ & _ & Hkeep & _).
  rewrite Hens in Heq'. injection Heq' as <- <-.
  unfold readable, node_at. rewrite Hfs. destruct f as [|s f]; [done|].
  destruct (σ !! (s :: f)) eqn:Hf; [|done].
  rewrite Hkeep; cbn; rewrite Hf; done.
Qed.

(** The history of a completed run: the loop's part, between what was
    printed before it and the summary. *)
Lemma run_completed_observations e cfg σ st0 files :
  loop_entry e cfg σ = Some (st0, files) →
  ∃ st3 vs Δ,
    loop_run e (OUTPUT_DIR cfg) files st0 st3 vs Δ ∧
    st_fs (run e cfg σ) = st_fs st3 ∧
    success_count (run e cfg σ) = success_count st3 ∧
    fail_count (run e cfg σ) = fail_count st3 ∧
    posts (trace (run e cfg σ)) = posts Δ ∧
    gets (trace (run e cfg σ)) = gets Δ ∧
    skips (trace (run e cfg σ)) = skips Δ ∧
    documents (trace (run e cfg σ)) = documents Δ.
Proof.
  intros H. destruct (run_completed _ _ _ _ _ H) as (st3 & vs & Δ & Hrun & Heq).
  exists st3, vs, Δ. split; [done|]. unfold run. rewrite Heq. cbn.
  pose proof (loop_run_trace _ _ _ _ _ _ _ Hrun) as Ht.
  destruct (loop_entry_state _ _ _ _ _ H)
    as (_ & _ & _ & _ & _ & _ & _ & _ & Hp & Hg & Hs & Hd & _).
  unfold posts, gets, skips, documents in *.
  rewrite Ht, !omap_app, Hp, Hg, Hs, Hd, !app_nil_r. done.
Qed.

(** C10.  The guard looks at the existence of the candidate output file
    only.  If that file exists when the run starts, whatever it holds
    (empty or truncated included), the run sends no conversion request
    for the document and leaves the file as it is. *)
Theorem existing_output_is_authoritative e cfg σ pdf_file :
  has_output σ (OUTPUT_DIR cfg) pdf_file = true →
  (path_name pdf_file ∉ posts (trace (run e cfg σ))) ∧
  st_fs (run e cfg σ) !! target (OUTPUT_DIR cfg) pdf_file
    = σ !! target (OUTPUT_DIR cfg) pdf_file.
Proof.
  intros Hex. split.
  - destruct (loop_entry e cfg σ) as [[st0 files]|] eqn:H.
    + destruct (run_completed_observations _ _ _ _ _ H)
        as (st3 & vs & Δ & Hrun & _ & _ & _ & -> & _).
      intros Hin.
      destruct (loop_run_posts_unconverted _ _ _ _ _ _ _ _ Hrun Hin)
        as (g & _ & Hname & Hno).
      rewrite (entry_has_output _ _ _ _ _ g H) in Hno.
      unfold has_output, target in *.
      rewrite (md_name_of_name _ _ Hname) in Hno. congruence.
    + destruct (run_early_exit _ _ _ H) as (_ & _ & _ & -> & _).
      apply not_elem_of_nil.
  - apply run_keeps. unfold has_output, target in *.
    by apply path_exists_entry.
Qed.

Lemma existing_output_is_authoritative_witness :
  let e := Sample.world (Returns (Sample.reply 200 (Sample.inline_result (JStr "# text"))))
                        Sample.unreachable in
  (path_name Sample.a_pdf ∉ posts (trace (run e Sample.cfg Sample.two_pdfs))) ∧
  st_fs (run e Sample.cfg Sample.two_pdfs) !! target (OUTPUT_DIR Sample.cfg) Sample.a_pdf
    = Sample.two_pdfs !! target (OUTPUT_DIR Sample.cfg) Sample.a_pdf.
Proof.
  intros e.
  apply (existing_output_is_authoritative e Sample.cfg Sample.two_pdfs Sample.a_pdf).
  reflexivity.
Defined.

Section uploads.
Context (e : env) (out : path).

Lemma iteration_readable f st st' v Δ g :
  iteration e out f st st' v Δ →
  readable e (st_fs st) g = true → readable e (st_fs st') g = true.
Proof.
  intros Hit. unfold readable, node_at. destruct g as [|s g]; [done|].
  destruct (st_fs st !! (s :: g)) eqn:Hg; [|done].
  erewrite iteration_keeps; [by rewrite Hg|done|by rewrite Hg].
Qed.

(** At most one upload per document that is not skipped, and exactly
    one when every source file can be opened. *)
Lemma loop_run_posts_count l st st' vs Δ :
  loop_run e out l st st' vs Δ →
  (length (posts Δ) ≤ count_verdict Succeeded vs + count_verdict Failed vs)%nat ∧
  ((∀ f, f ∈ l → readable e (st_fs st) f = true) →
   length (posts Δ) = (count_verdict Succeeded vs + count_verdict Failed vs)%nat).
Proof.
  induction 1 as [|f rest st st1 st2 v vs Δ1 Δ2 Hit Hrun [IH1 IH2]].
  { split; [cbn; lia|done]. }
  unfold posts, count_verdict in *. rewrite omap_app, length_app, !filter_cons.
  assert ((∀ g, g ∈ f :: rest → readable e (st_fs st) g = true) →
          ∀ g, g ∈ rest → readable e (st_fs st1) g = true) as Hrest.
  { intros Hall g Hg. eapply iteration_readable; [done|]. apply Hall. by right. }
  destruct Hit as [_ _ _ _ Hv]. unfold posts in Hv.
  destruct v; cbn in Hv; destruct_and!; repeat case_decide; try done.
  - repeat match goal with H : omap posted _ = _ |- _ => rewrite H end.
    split; [cbn; lia|]. intros Hall. rewrite IH2 by auto. cbn. lia.
  - repeat match goal with H : omap posted _ = _ |- _ => rewrite H end.
    split; [cbn; lia|]. intros Hall. rewrite IH2 by auto. cbn. lia.
  - repeat match goal with H : omap posted _ = _ |- _ => rewrite H end.
    split.
    + destruct (readable e (st_fs st) f); cbn; lia.
    + intros Hall. rewrite IH2 by auto.
      rewrite (Hall f) by (by left). cbn. lia.
Qed.
End uploads.

(** C5, amended.  Take a run that reaches the loop with [N] enumerated
    documents whose output names are pairwise distinct, [M] of which
    have their output file when the run starts.  The run announces the
    [N] documents, skips exactly [M] of them, and uploads at most once
    per document, hence at most [N - M] times; it uploads exactly
    [N - M] times when every source file can be opened.  The enumerated
    documents are the entries of the input directory that match. *)
Theorem attempts_and_skips e cfg σ st0 files :
  loop_entry e cfg σ = Some (st0, files) →
  NoDup (md_name <$> files) →
  let h := trace (run e cfg σ) in
  let N := length files in
  let M := length (filter (λ f, has_output σ (OUTPUT_DIR cfg) f = true) files) in
  length (documents h) = N ∧
  length (skips h) = M ∧
  posts h `sublist_of` documents h ∧
  (length (posts h) ≤ N - M)%nat ∧
  ((∀ f, f ∈ files → readable e σ f = true) → length (posts h) = (N - M)%nat) ∧
  (lists_faithfully e → files ≡ₚ matching_files cfg (st_fs st0)).
Proof.
  intros H Hnd h N M. subst h.
  destruct (run_completed_observations _ _ _ _ _ H)
    as (st3 & vs & Δ & Hrun & _ & _ & _ & -> & _ & -> & ->).
  destruct (loop_run_documents _ _ _ _ _ _ _ Hrun) as (Hdocs & _ & _).
  pose proof (loop_run_skips _ _ _ _ _ _ _ Hrun Hnd) as Hskips.
  destruct (loop_run_counts _ _ _ _ _ _ _ Hrun) as (_ & _ & Hsk).
  pose proof (loop_run_length _ _ _ _ _ _ _ Hrun) as Hlen.
  pose proof (count_verdict_total vs) as Htot.
  destruct (loop_run_posts_count _ _ _ _ _ _ _ Hrun) as [Hle Heq].
  assert (length (skips Δ) = M) as HM.
  { rewrite Hskips, length_reverse, length_fmap. subst M. f_equal.
    apply filter_ext_in. intros f _. by rewrite (entry_has_output _ _ _ _ _ f H). }
  assert (length (documents Δ) = N) as HN.
  { by rewrite Hdocs, length_reverse, length_fmap. }
  split; [done|]. split; [done|].
  split; [by eapply loop_run_posts_sublist|].
  split; [lia|]. split.
  - intros Hread. rewrite Heq; [lia|].
    intros f Hf. eapply entry_readable; [done|]. by apply Hread.
  - intros Hfaith.
    destruct (loop_entry_state _ _ _ _ _ H) as (st1 & _ & _ & -> & _ & -> & _).
    unfold matching_files. by rewrite (Hfaith _).
Qed.

Lemma attempts_and_skips_witness :
  let e := Sample.world (Returns (Sample.reply 200 (Sample.inline_result (JStr "# text"))))
                        Sample.unreachable in
  let h := trace (run e Sample.cfg Sample.two_pdfs) in
  let files := [Sample.b_pdf; Sample.a_pdf] in
  let N := length files in
  let M := length (filter (λ f, has_output Sample.two_pdfs (OUTPUT_DIR Sample.cfg) f = true)
                          files) in
  length (documents h) = N ∧
  length (skips h) = M ∧
  posts h `sublist_of` documents h ∧
  (length (posts h) ≤ N - M)%nat ∧
  ((∀ f, f ∈ files → readable e Sample.two_pdfs f = true) →
   length (posts h) = (N - M)%nat) ∧
  (lists_faithfully e →
   files ≡ₚ matching_files Sample.cfg Sample.two_pdfs).
Proof.
  intros e.
  apply (attempts_and_skips e Sample.cfg Sample.two_pdfs
           (mkState Sample.two_pdfs 0 0
              [EvPrint (MsgApiUrl (API_URL Sample.cfg)); EvPrint (MsgFound 2);
               EvGlob (INPUT_DIR Sample.cfg)])
           [Sample.b_pdf; Sample.a_pdf]).
  - vm_compute. reflexivity.
  - compute_done.
Defined.

(** C5 as worded fails: the names [.pdf] and [.pdf.pdf] both match and
    have the same stem, so the second document is skipped once the first
    one is converted: two files, none converted before, one upload and
    one skip. *)
Lemma same_stem_second_is_skipped :
  ¬ attempts_all_unconverted
      (Sample.world (Returns (Sample.reply 200 (Sample.inline_result (JStr "# text"))))
                    Sample.unreachable)
      Sample.cfg Sample.dotted.
Proof. intros [Hposts _]. vm_compute in Hposts. discriminate. Qed.

(** ** Running the batch twice *)

Lemma endswith_app s suffix :
  endswith s suffix = true → ∃ pre, s = pre +:+ suffix.
Proof.
  induction s as [|a s IH]; cbn [endswith].
  - rewrite orb_false_r. intros ->%String.eqb_eq. by exists "".
  - intros [->%String.eqb_eq | Hs]%orb_true_iff; [by exists ""|].
    destruct (IH Hs) as [pre ->]. by exists (String a pre).
Qed.

Lemma md_is_not_pdf a b : a +:+ ".md" ≠ b +:+ ".pdf".
Proof.
  revert b. induction a as [|c a IH]; intros b.
  - do 4 (destruct b as [|? b]; cbn; try discriminate).
  - destruct b as [|c' b]; cbn.
    + do 4 (destruct a as [|? a]; cbn; try discriminate).
    + intros [= _ H]. by apply IH in H.
Qed.

(** An output name never matches the input pattern. *)
Lemma md_name_not_pdf f : matches_pdf (md_name f) = false.
Proof.
  unfold matches_pdf, md_name.
  destruct (endswith _ _) eqn:H; [|done].
  apply endswith_app in H as [pre H]. by apply md_is_not_pdf in H.
Qed.

(** ** Output names of matching files *)

Lemma rfind_from_no_dot i : rfind_from "."%char "pdf" i = None.
Proof. reflexivity. Qed.

Lemma rfind_from_pdf s i :
  rfind_from "."%char (s +:+ ".pdf") i = Some (i + String.length s)%nat.
Proof.
  revert i. induction s as [|a s IH]; intros i.
  - cbn. f_equal. lia.
  - change (String a s +:+ ".pdf") with (String a (s +:+ ".pdf")).
    cbn [rfind_from String.length]. rewrite IH. f_equal. lia.
Qed.

Lemma substring_prefix s t : substring 0 (String.length s) (s +:+ t) = s.
Proof.
  induction s as [|a s IH]; [by destruct t|].
  change (String a s +:+ t) with (String a (s +:+ t)).
  cbn [String.length substring]. by rewrite IH.
Qed.

Lemma length_append s t :
  String.length (s +:+ t) = (String.length s + String.length t)%nat.
Proof.
  induction s as [|a s IH]; [done|].
  change (String a s +:+ t) with (String a (s +:+ t)).
  cbn [String.length]. by rewrite IH.
Qed.

(** The stem of a matching name is the name without [.pdf], except for
    the name [.pdf] itself, which has no suffix. *)
Lemma stem_pdf s : stem (s +:+ ".pdf") = if String.eqb s "" then ".pdf" else s.
Proof.
  unfold stem, rfind. rewrite rfind_from_pdf, length_append. cbn [String.length Nat.add].
  destruct s as [|a s]; [done|].
  replace (String.length (String a s) + 4 - 1)%nat
    with (String.length (String a s) + 3)%nat by lia.
  cbn [String.eqb String.length].
  replace (0 <? S (String.length s))%nat with true
    by (symmetry; apply Nat.ltb_lt; lia).
  replace (S (String.length s) <? S (String.length s) + 3)%nat with true
    by (symmetry; apply Nat.ltb_lt; lia).
  cbn [andb]. apply (substring_prefix (String a s)).
Qed.

Lemma append_inj_r s t u : s +:+ u = t +:+ u → s = t.
Proof.
  revert t. induction s as [|a s IH]; intros t H.
  - destruct t as [|b t]; [done|]. exfalso.
    apply (f_equal String.length) in H.
    change (String b t +:+ u) with (String b (t +:+ u)) in H.
    cbn [String.length] in H. rewrite !length_append in H. cbn [String.length] in H. lia.
  - destruct t as [|b t].
    + exfalso. apply (f_equal String.length) in H.
      change (String a s +:+ u) with (String a (s +:+ u)) in H.
      cbn [String.length] in H. rewrite !length_append in H. cbn [String.length] in H. lia.
    + change (String a (s +:+ u) = String b (t +:+ u)) in H.
      injection H as -> H. f_equal. by apply IH.
Qed.

(** Two different matching names have the same output name only when
    they are [.pdf] and [.pdf.pdf]. *)
Lemma same_output_name n1 n2 :
  matches_pdf n1 = true → matches_pdf n2 = true →
  stem n1 +:+ ".md" = stem n2 +:+ ".md" →
  n1 = n2 ∨ (n1 = ".pdf" ∧ n2 = ".pdf.pdf") ∨ (n1 = ".pdf.pdf" ∧ n2 = ".pdf").
Proof.
  intros [s1 ->]%endswith_app [s2 ->]%endswith_app Heq%append_inj_r.
  rewrite !stem_pdf in Heq.
  destruct (String.eqb_spec s1 "") as [E1|E1];
    destruct (String.eqb_spec s2 "") as [E2|E2]; subst.
  - by left.
  - right. by left.
  - right. by right.
  - by left.
Qed.

(** The documents a run enumerates have pairwise distinct output names,
    unless the input directory holds both [.pdf] and [.pdf.pdf]. *)
Lemma enumerated_output_names_distinct e cfg σ st0 files :
  loop_entry e cfg σ = Some (st0, files) →
  lists_faithfully e →
  ¬ (INPUT_DIR cfg ++ [".pdf"] ∈ files ∧ INPUT_DIR cfg ++ [".pdf.pdf"] ∈ files) →
  NoDup (md_name <$> files).
Proof.
  intros H Hfaith Hboth.
  destruct (loop_entry_state _ _ _ _ _ H) as (st1 & _ & _ & Hfiles & _).
  assert (NoDup (filter (λ name, matches_pdf name = true)
                        (listing_order e (children (st_fs st1) (INPUT_DIR cfg))))) as Hnd.
  { rewrite (Hfaith _). apply NoDup_filter, NoDup_children. }
  rewrite Hfiles in Hboth |- *. rewrite <- list_fmap_compose.
  apply NoDup_fmap_2_strong; [|done].
  intros n1 n2 Hn1 Hn2 Heq.
  pose proof Hn1 as [Hm1 _]%list_elem_of_filter.
  pose proof Hn2 as [Hm2 _]%list_elem_of_filter.
  cbn in Heq. unfold md_name in Heq. rewrite !path_name_entry in Heq.
  destruct (same_output_name _ _ Hm1 Hm2 Heq) as [?|[[-> ->]|[-> ->]]]; [done|..];
    exfalso; apply Hboth;
    split; by apply (list_elem_of_fmap_2 (λ name, INPUT_DIR cfg ++ [name])).
Qed.

(** The loop does not change which entries of a directory match. *)
Lemma loop_run_matching e out l st st' vs Δ dir :
  loop_run e out l st st' vs Δ →
  filter (λ name, matches_pdf name = true) (children (st_fs st') dir)
  ≡ₚ filter (λ name, matches_pdf name = true) (children (st_fs st) dir).
Proof.
  intros Hrun. apply NoDup_Permutation.
  - apply NoDup_filter, NoDup_children.
  - apply NoDup_filter, NoDup_children.
  - intros name. rewrite !list_elem_of_filter, !elem_of_children.
    split; intros [Hm Hs]; (split; [done|]).
    + rewrite <- (loop_run_frame _ _ _ _ _ _ _ _ Hrun); [done|].
      intros f _ Heq. unfold target in Heq.
      apply app_inj_tail in Heq as [_ ->].
      by rewrite md_name_not_pdf in Hm.
    + rewrite (loop_run_keeps _ _ _ _ _ _ _ _ Hrun); done.
Qed.

(** C3.  If the first run reached the loop and succeeded for every
    document it enumerated, a second run on the file system it left, with
    any behaviour of the service and of the operating system, skips
    every one of these documents: no success, no failure, no request
    sent, and the file system is unchanged. *)
Theorem second_run_skips_everything e1 e2 cfg σ st0 files :
  loop_entry e1 cfg σ = Some (st0, files) →
  success_count (run e1 cfg σ) = length files →
  lists_faithfully e1 → lists_faithfully e2 →
  let σ' := st_fs (run e1 cfg σ) in
  success_count (run e2 cfg σ') = 0%nat ∧
  fail_count (run e2 cfg σ') = 0%nat ∧
  posts (trace (run e2 cfg σ')) = [] ∧
  gets (trace (run e2 cfg σ')) = [] ∧
  skips (trace (run e2 cfg σ')) ≡ₚ md_name <$> files ∧
  documents (trace (run e2 cfg σ')) ≡ₚ path_name <$> files ∧
  st_fs (run e2 cfg σ') = σ'.
Proof.
  intros H Hall Hf1 Hf2 σ'.
  destruct (run_completed_observations _ _ _ _ _ H)
    as (st3 & vs & Δ & Hrun & Hfs & Hsc & _).
  destruct (loop_entry_state _ _ _ _ _ H)
    as (st1 & Hens & Hin & Hfiles & Hne & Hfs0 & Hs0 & _).
  destruct (ensure_output_dir_spec e1 cfg (initial σ))
    as (st1' & ready & Δ1 & Heq1 & _ & _ & _ & _ & _ & _ & _ & _ & _ & _ & _ & Hready & _).
  rewrite Hens in Heq1. injection Heq1 as <- <-.
  (* every document of the first run has its output at the end *)
  destruct (loop_run_counts _ _ _ _ _ _ _ Hrun) as (Hsucc & _ & _).
  pose proof (loop_run_length _ _ _ _ _ _ _ Hrun) as Hlen.
  assert (∀ f, f ∈ files → has_output σ' (OUTPUT_DIR cfg) f = true) as Hout.
  { subst σ'. rewrite Hfs.
    eapply loop_run_succeeded_outputs; [done|].
    apply count_verdict_all. rewrite Hsc, Hsucc, Hs0 in Hall. lia. }
  (* the second run finds both directories *)
  assert (path_exists σ' (OUTPUT_DIR cfg) = true) as Hout'.
  { subst σ'. rewrite Hfs. eapply loop_run_exists; [done|].
    rewrite Hfs0. by apply Hready. }
  assert (path_exists σ' (INPUT_DIR cfg) = true) as Hin'.
  { subst σ'. rewrite Hfs. eapply loop_run_exists; [done|]. by rewrite Hfs0. }
  (* and enumerates the same documents *)
  set (files' := (λ name, INPUT_DIR cfg ++ [name]) <$>
                 filter (λ name, matches_pdf name = true)
                        (listing_order e2 (children σ' (INPUT_DIR cfg)))).
  assert (files' ≡ₚ files) as Hperm.
  { subst files' σ'. rewrite Hfiles, (Hf2 _), (Hf1 _), Hfs.
    by rewrite (loop_run_matching _ _ _ _ _ _ _ _ Hrun), Hfs0. }
  destruct (ensure_output_dir_spec e2 cfg (initial σ'))
    as (st2 & ready2 & Δ2 & Heq2 & _ & _ & _ & _ & _ & _ & _ & _ & _ & _ & _ & _ & Hsame & _).
  destruct (Hsame Hout') as [-> ->].
  assert (∃ st0', loop_entry e2 cfg σ' = Some (st0', files') ∧ st_fs st0' = σ' ∧
                  success_count st0' = 0%nat ∧ fail_count st0' = 0%nat) as (st0' & H' & Hfs' & Hs' & Hf').
  { unfold loop_entry. rewrite Heq2. cbn [st_fs initial]. rewrite Hin', glob_pdf_eq.
    cbn [st_fs initial]. fold files'.
    destruct files' as [|f' rest'] eqn:Hf'.
    - apply Permutation_nil_l in Hperm. by subst files.
    - eexists. split; [done|]. done. }
  destruct (run_completed_observations _ _ _ _ _ H')
    as (st3' & vs' & Δ' & Hrun' & -> & -> & -> & -> & -> & -> & ->).
  destruct (loop_run_all_skipped _ _ _ _ _ _ _ Hrun')
    as (-> & -> & -> & -> & -> & Hskips).
  { intros f Hf. rewrite Hfs'. apply Hout. by rewrite <- Hperm. }
  destruct (loop_run_documents _ _ _ _ _ _ _ Hrun') as (-> & _ & _).
  rewrite Hskips, !reverse_Permutation, Hperm. done.
Qed.

Lemma second_run_skips_everything_witness :
  let e := Sample.world (Returns (Sample.reply 200 (Sample.inline_result (JStr "# text"))))
                        Sample.unreachable in
  let σ' := st_fs (run e Sample.cfg Sample.one_pdf) in
  success_count (run e Sample.cfg σ') = 0%nat ∧
  fail_count (run e Sample.cfg σ') = 0%nat ∧
  posts (trace (run e Sample.cfg σ')) = [] ∧
  gets (trace (run e Sample.cfg σ')) = [] ∧
  skips (trace (run e Sample.cfg σ')) ≡ₚ md_name <$> [Sample.a_pdf] ∧
  documents (trace (run e Sample.cfg σ')) ≡ₚ path_name <$> [Sample.a_pdf] ∧
  st_fs (run e Sample.cfg σ') = σ'.
Proof.
  intros e.
  apply (second_run_skips_everything e e Sample.cfg Sample.one_pdf
           (mkState Sample.one_pdf 0 0
              [EvPrint (MsgApiUrl (API_URL Sample.cfg)); EvPrint (MsgFound 1);
               EvGlob (INPUT_DIR Sample.cfg)])
           [Sample.a_pdf]).
  - vm_compute. reflexivity.
  - vm_compute. reflexivity.
  - intros names. reflexivity.
  - intros names. reflexivity.
Defined.

Lemma skip_leaves_counters_witness :
  let e := Sample.world Sample.unreachable Sample.unreachable in
  let st := initial Sample.two_pdfs in
  loop_body e Sample.cfg ["out"] 2 1 Sample.a_pdf st =
    (mkState Sample.two_pdfs 0 0
       [EvPrint (MsgSkipped "a.md"); EvPrint (MsgProcessing 1 2 "a.pdf")], inr tt) ∧
  for_loop e Sample.cfg ["out"] 2 1 [Sample.a_pdf; Sample.b_pdf] st =
    for_loop e Sample.cfg ["out"] 2 2 [Sample.b_pdf]
      (loop_body e Sample.cfg ["out"] 2 1 Sample.a_pdf st).1 ∧
  ∀ st2, has_output (st_fs st2) ["out"] Sample.a_pdf = false →
    let st3 := (loop_body e Sample.cfg ["out"] 2 1 Sample.a_pdf st2).1 in
    (success_count st3 = S (success_count st2) ∧ fail_count st3 = fail_count st2) ∨
    (success_count st3 = success_count st2 ∧ fail_count st3 = S (fail_count st2)).
Proof.
  intros e st.
  apply (skip_leaves_counters e Sample.cfg ["out"] 2 1 Sample.a_pdf [Sample.b_pdf] st).
  reflexivity.
Defined.

(** ** The scenarios of the specification, evaluated *)

(** A service that cannot be reached: every document that is not skipped
    fails, and the summary is printed. *)
Example unreachable_service :
  let r := run (Sample.world Sample.unreachable Sample.unreachable)
               Sample.cfg Sample.two_pdfs in
  success_count r = 0%nat ∧ fail_count r = 1%nat ∧
  skips (trace r) = ["a.md"] ∧ posts (trace r) = ["b.pdf"] ∧
  summaries (trace r) = [(0%nat, 1%nat, ["out"])] ∧
  st_fs r !! ["out"; "b.md"] = None.
Proof. cbv zeta. split_and!; vm_compute; reflexivity. Qed.

(** The service reports a failure: one failure, nothing written. *)
Example service_reports_failure :
  let r := run (Sample.world (Returns (Sample.reply 200 Sample.failure_result))
                             Sample.unreachable)
               Sample.cfg Sample.one_pdf in
  success_count r = 0%nat ∧ fail_count r = 1%nat ∧
  st_fs r !! ["out"; "a.md"] = None ∧
  head (tail (trace r)) = Some (EvPrint (MsgApiError (JStr "bad format"))).
Proof. cbv zeta. split_and!; vm_compute; reflexivity. Qed.

(** A body that is not JSON, and a body without its data object. *)
Example malformed_body :
  let r := run (Sample.world (Returns (Sample.page 200 "<html>")) Sample.unreachable)
               Sample.cfg Sample.one_pdf in
  success_count r = 0%nat ∧ fail_count r = 1%nat ∧
  exceptions (trace r) = [MsgException JSONDecodeError].
Proof. cbv zeta. split_and!; vm_compute; reflexivity. Qed.

Example missing_data :
  let r := run (Sample.world (Returns (Sample.reply 200 (JObj [("success", JBool true)])))
                             Sample.unreachable)
               Sample.cfg Sample.one_pdf in
  success_count r = 0%nat ∧ fail_count r = 1%nat ∧
  exceptions (trace r) = [MsgException KeyError].
Proof. cbv zeta. split_and!; vm_compute; reflexivity. Qed.

(** Content that is not text: the output file is created, the write
    fails, and an empty file stays behind. *)
Example content_not_text :
  let r := run (Sample.world (Returns (Sample.reply 200 (Sample.inline_result (JNum 7))))
                             Sample.unreachable)
               Sample.cfg Sample.one_pdf in
  success_count r = 0%nat ∧ fail_count r = 1%nat ∧
  st_fs r !! ["out"; "a.md"] = Some (File "") ∧
  exceptions (trace r) = [MsgException TypeError].
Proof. cbv zeta. split_and!; vm_compute; reflexivity. Qed.

(** A source file that cannot be opened is not uploaded. *)
Example locked_source :
  let r := run (Sample.locked_world
                  (Returns (Sample.reply 200 (Sample.inline_result (JStr "# text"))))
                  Sample.unreachable)
               Sample.cfg Sample.one_pdf in
  success_count r = 0%nat ∧ fail_count r = 1%nat ∧ posts (trace r) = [] ∧
  exceptions (trace r) = [MsgException PermissionError].
Proof. cbv zeta. split_and!; vm_compute; reflexivity. Qed.

(** The stems of the two names that collide. *)
Example stems :
  stem ".pdf" = ".pdf" ∧ stem ".pdf.pdf" = ".pdf" ∧ stem "a.b.pdf" = "a.b" ∧
  stem "report.pdf" = "report".
Proof. split_and!; reflexivity. Qed.

(** The run on the directory with [.pdf] and [.pdf.pdf]: both match,
    neither has an output, one is uploaded and the other skipped. *)
Example same_stem_run :
  let r := run (Sample.world (Returns (Sample.reply 200 (Sample.inline_result (JStr "# text"))))
                             Sample.unreachable)
               Sample.cfg Sample.dotted in
  path_name <$> matching_files Sample.cfg Sample.dotted = [".pdf"; ".pdf.pdf"] ∧
  filter (λ f, has_output Sample.dotted ["out"] f = true)
         (matching_files Sample.cfg Sample.dotted) = [] ∧
  posts (trace r) = [".pdf"] ∧ skips (trace r) = [".pdf.md"] ∧
  success_count r = 1%nat ∧ fail_count r = 0%nat.
Proof. cbv zeta. split_and!; vm_compute; reflexivity. Qed.

(** The shipped settings on a file system without the input directory:
    both directories are created, the enumeration finds nothing. *)
Example shipped_settings_without_input :
  let r := run (Sample.world Sample.unreachable Sample.unreachable)
               default_config Sample.no_input in
  trace r = [EvPrint (MsgNoPdfFound (INPUT_DIR default_config));
             EvGlob (INPUT_DIR default_config);
             EvPrint (MsgCreatedOutputDir (OUTPUT_DIR default_config))] ∧
  st_fs r !! INPUT_DIR default_config = Some Dir ∧
  st_fs r !! OUTPUT_DIR default_config = Some Dir.
Proof. cbv zeta. split_and!; vm_compute; reflexivity. Qed.

(** * Further properties of the script *)

(** ** The other ways a pass can end *)





(** X2.  With status 200 and a success flag that is false, absent or
    otherwise falsy, the pass counts one failure and prints the message
    of the body, or the default text when the body has none; the data
    object is not read, nothing is downloaded or written. *)
Theorem reported_failure_is_counted e cfg out total index pdf_file st content r
    result flag :
  has_output (st_fs st) out pdf_file = false →
  answered e cfg total index pdf_file st content r →
  status_code r = 200 →
  json_body r = Some result →
  py_get result "success" JNull = inr flag → truthy flag = false →
  ∃ error_msg,
    py_get result "message" (JStr "未知错误") = inr error_msg ∧
    loop_body e cfg out total index pdf_file st =
      (mkState (st_fs st) (success_count st) (S (fail_count st))
         (EvPrint (MsgApiError error_msg)
            :: trace (uploaded cfg total index pdf_file content st)), inr tt).
Proof.
  intros Hno (Hsrc & Hread & Hpost) Hst Hbody Hflag Hfalsy.
  pose proof (no_output_exists _ _ _ Hno) as Hex.
  destruct result as [| | | | |members]; try discriminate Hflag.
  eexists. split; [reflexivity|].
  unfold uploaded, announced in *. cbn [trace] in Hpost.
  injection Hflag as <-.
  unfold_control. unfold py_get. by forward.
Qed.

Lemma reported_failure_is_counted_witness :
  let e := Sample.world (Returns (Sample.reply 200 Sample.failure_result))
                        Sample.unreachable in
  let st := initial Sample.one_pdf in
  ∃ error_msg,
    py_get Sample.failure_result "message" (JStr "未知错误") = inr error_msg ∧
    loop_body e Sample.cfg ["out"] 1 1 Sample.a_pdf st =
      (mkState (st_fs st) (success_count st) (S (fail_count st))
         (EvPrint (MsgApiError error_msg)
            :: trace (uploaded Sample.cfg 1 1 Sample.a_pdf "%PDF-a" st)), inr tt).
Proof.
  intros e st.
  apply (reported_failure_is_counted e Sample.cfg ["out"] 1 1 Sample.a_pdf st "%PDF-a"
           (Sample.reply 200 Sample.failure_result) Sample.failure_result (JBool false)).
  - reflexivity.
  - repeat split; reflexivity.
  - reflexivity.
  - reflexivity.
  - reflexivity.
  - reflexivity.
Defined.

(** X3.  When the answer says success but carries no inline content, and
    the download is not possible (no usable URL) or fails (the GET raises
    or returns a status other than 200), the pass counts one failure,
    reports "no content" and writes nothing; the exception of the GET
    does not leave the pass. *)
Theorem failed_download_is_failure e cfg out total index pdf_file st content r
    result data inline url :
  has_output (st_fs st) out pdf_file = false →
  answered e cfg total index pdf_file st content r →
  status_code r = 200 →
  reports_success r result data →
  py_get data "markdownContent" JNull = inr inline → truthy inline = false →
  py_get data "markdownUrl" JNull = inr url →
  truthy url = false ∨
  (∃ ex, http_get e (EvPrint MsgDownloading
                       :: trace (uploaded cfg total index pdf_file content st))
           url 60 = Raises ex) ∨
  (∃ page, http_get e (EvPrint MsgDownloading
                         :: trace (uploaded cfg total index pdf_file content st))
             url 60 = Returns page ∧ status_code page ≠ 200) →
  let st' := (loop_body e cfg out total index pdf_file st).1 in
  (loop_body e cfg out total index pdf_file st).2 = inr tt ∧
  st_fs st' = st_fs st ∧
  success_count st' = success_count st ∧
  fail_count st' = S (fail_count st) ∧
  head (trace st') = Some (EvPrint MsgNoContent).
Proof.
  intros Hno (Hsrc & Hread & Hpost) Hst (Hbody & (flag & Hflag & Htrue) & Hdata)
    Hmd Hinline Hurl Hfail.
  pose proof (no_output_exists _ _ _ Hno) as Hex.
  unfold uploaded, announced in *. cbn [trace] in Hpost, Hfail.
  destruct (truthy url) eqn:Hfalsy;
    [destruct Hfail as [? | [[ex Hget] | (page & Hget & Hpage%Z.eqb_neq)]];
       [done|..] |];
    unfold_control; forward; done.
Qed.

Lemma failed_download_is_failure_witness :
  let e := Sample.world
             (Returns (Sample.reply 200 (Sample.remote_result JNull (JStr "http://host/a.md"))))
             (Returns (Sample.page 404 "not found")) in
  let st' := (loop_body e Sample.cfg ["out"] 1 1 Sample.a_pdf (initial Sample.one_pdf)).1 in
  (loop_body e Sample.cfg ["out"] 1 1 Sample.a_pdf (initial Sample.one_pdf)).2 = inr tt ∧
  st_fs st' = Sample.one_pdf ∧
  success_count st' = 0%nat ∧ fail_count st' = 1%nat ∧
  head (trace st') = Some (EvPrint MsgNoContent).
Proof.
  intros e.
  apply (failed_download_is_failure e Sample.cfg ["out"] 1 1 Sample.a_pdf
           (initial Sample.one_pdf) "%PDF-a"
           (Sample.reply 200 (Sample.remote_result JNull (JStr "http://host/a.md")))
           (Sample.remote_result JNull (JStr "http://host/a.md"))
           (JObj [("markdownContent", JNull); ("markdownUrl", JStr "http://host/a.md")])
           JNull (JStr "http://host/a.md")).
  - reflexivity.
  - repeat split; reflexivity.
  - reflexivity.
  - split; [reflexivity|]. split; [|reflexivity]. by exists (JBool true).
  - reflexivity.
  - reflexivity.
  - reflexivity.
  - right. right. exists (Sample.page 404 "not found"). split; [reflexivity|discriminate].
Defined.

(** X4.  Inline content wins: when the answer carries a non-empty inline
    content, the markdownUrl is never fetched, whatever it is and
    whether or not the content can then be written. *)
Theorem inline_content_is_not_downloaded e cfg out total index pdf_file st content r
    result data inline :
  has_output (st_fs st) out pdf_file = false →
  answered e cfg total index pdf_file st content r →
  status_code r = 200 →
  reports_success r result data →
  py_get data "markdownContent" JNull = inr inline → truthy inline = true →
  let st' := (loop_body e cfg out total index pdf_file st).1 in
  gets (trace st') = gets (trace st) ∧
  posts (trace st') = path_name pdf_file :: posts (trace st).
Proof.
  intros Hno (Hsrc & Hread & Hpost) Hst (Hbody & (flag & Hflag & Htrue) & Hdata)
    Hmd Hinline.
  pose proof (no_output_exists _ _ _ Hno) as Hex.
  unfold uploaded, announced in *. cbn [trace] in Hpost.
  unfold_control. forward.
  repeat (break_match; simplify_eq/=); done.
Qed.

Lemma inline_content_is_not_downloaded_witness :
  let e := Sample.world
             (Returns (Sample.reply 200
                         (Sample.remote_result (JStr "# A") (JStr "http://host/a.md"))))
             (Returns (Sample.page 200 "other")) in
  let st' := (loop_body e Sample.cfg ["out"] 1 1 Sample.a_pdf (initial Sample.one_pdf)).1 in
  gets (trace st') = gets (trace (initial Sample.one_pdf)) ∧
  posts (trace st') = path_name Sample.a_pdf :: posts (trace (initial Sample.one_pdf)).
Proof.
  intros e.
  apply (inline_content_is_not_downloaded e Sample.cfg ["out"] 1 1 Sample.a_pdf
           (initial Sample.one_pdf) "%PDF-a"
           (Sample.reply 200 (Sample.remote_result (JStr "# A") (JStr "http://host/a.md")))
           (Sample.remote_result (JStr "# A") (JStr "http://host/a.md"))
           (JObj [("markdownContent", JStr "# A"); ("markdownUrl", JStr "http://host/a.md")])
           (JStr "# A")).
  - reflexivity.
  - repeat split; reflexivity.
  - reflexivity.
  - split; [reflexivity|]. split; [|reflexivity]. by exists (JBool true).
  - reflexivity.
  - reflexivity.
Defined.

(** X5.  A matching entry that cannot be opened for reading (a
    directory, a file the system refuses, a file that disappeared) is
    never uploaded: the pass reports the exception, counts one failure
    and changes nothing on disk. *)
Theorem unreadable_source_is_not_uploaded e cfg out total index pdf_file st :
  has_output (st_fs st) out pdf_file = false →
  readable e (st_fs st) pdf_file = false →
  ∃ ex,
    (ex = IsADirectoryError ∨ ex = PermissionError ∨ ex = FileNotFoundError) ∧
    loop_body e cfg out total index pdf_file st =
      (mkState (st_fs st) (success_count st) (S (fail_count st))
         (EvPrint (MsgException ex) :: trace (announced total index pdf_file st)),
       inr tt).
Proof.
  intros Hno%no_output_exists Hread. unfold readable in Hread.
  unfold announced. unfold_control. forward.
  destruct (node_at (st_fs st) pdf_file) as [[|content]|] eqn:Hnode.
  - exists IsADirectoryError. split; [by left|done].
  - destruct (read_denied e pdf_file) eqn:Hden; [|done].
    exists PermissionError. split; [by right; left|done].
  - exists FileNotFoundError. split; [by right; right|done].
Qed.

Lemma unreadable_source_is_not_uploaded_witness :
  let e := Sample.world (Returns (Sample.reply 200 (Sample.inline_result (JStr "# A"))))
                        Sample.unreachable in
  let st := initial Scene.folder in
  ∃ ex,
    (ex = IsADirectoryError ∨ ex = PermissionError ∨ ex = FileNotFoundError) ∧
    loop_body e Sample.cfg ["out"] 1 1 Sample.a_pdf st =
      (mkState (st_fs st) (success_count st) (S (fail_count st))
         (EvPrint (MsgException ex) :: trace (announced 1 1 Sample.a_pdf st)),
       inr tt).
Proof.
  intros e st.
  apply (unreadable_source_is_not_uploaded e Sample.cfg ["out"] 1 1 Sample.a_pdf st);
    reflexivity.
Defined.

(** X6.  When the upload raises, the pass counts one failure and changes
    nothing on disk: a connection error prints the two lines about the
    service, any other exception prints the exception; nothing is
    downloaded. *)
Theorem transport_error_is_failure e cfg out total index pdf_file st content ex :
  has_output (st_fs st) out pdf_file = false →
  node_at (st_fs st) pdf_file = Some (File content) →
  read_denied e pdf_file = false →
  http_post e (trace (announced total index pdf_file st)) (API_URL cfg)
    (path_name pdf_file) content options 600 = Raises ex →
  loop_body e cfg out total index pdf_file st =
    (mkState (st_fs st) (success_count st) (S (fail_count st))
       ((if is_connection_error ex
         then [EvPrint MsgCheckDocker; EvPrint (MsgConnectionFailed (API_URL cfg))]
         else [EvPrint (MsgException ex)])
        ++ trace (uploaded cfg total index pdf_file content st)), inr tt).
Proof.
  intros Hno%no_output_exists Hsrc Hread Hpost.
  unfold uploaded, announced in *. cbn [trace] in Hpost.
  unfold_control. forward. by destruct (is_connection_error ex).
Qed.

Lemma transport_error_is_failure_witness :
  let e := Sample.world (Raises ReadTimeout) Sample.unreachable in
  let st := initial Sample.one_pdf in
  loop_body e Sample.cfg ["out"] 1 1 Sample.a_pdf st =
    (mkState (st_fs st) (success_count st) (S (fail_count st))
       ((if is_connection_error ReadTimeout
         then [EvPrint MsgCheckDocker; EvPrint (MsgConnectionFailed (API_URL Sample.cfg))]
         else [EvPrint (MsgException ReadTimeout)])
        ++ trace (uploaded Sample.cfg 1 1 Sample.a_pdf "%PDF-a" st)), inr tt).
Proof.
  intros e st.
  apply (transport_error_is_failure e Sample.cfg ["out"] 1 1 Sample.a_pdf st "%PDF-a"
           ReadTimeout); reflexivity.
Defined.

(** X7.  Content that is truthy but not text (a number, a list, an
    object, [true]) makes the pass fail after the output file has been
    created: the pass counts one failure and leaves an empty Output
    Document behind, so every later pass over the document skips it. *)
Theorem non_text_content_leaves_empty_output e cfg out total index pdf_file st content r
    result data inline :
  has_output (st_fs st) out pdf_file = false →
  answered e cfg total index pdf_file st content r →
  status_code r = 200 →
  reports_success r result data →
  py_get data "markdownContent" JNull = inr inline → truthy inline = true →
  (∀ s, inline ≠ JStr s) →
  writable e (st_fs st) out pdf_file →
  let st' := (loop_body e cfg out total index pdf_file st).1 in
  st_fs st' = <[target out pdf_file := File ""]> (st_fs st) ∧
  success_count st' = success_count st ∧
  fail_count st' = S (fail_count st) ∧
  head (trace st') = Some (EvPrint (MsgException TypeError)) ∧
  has_output (st_fs st') out pdf_file = true.
Proof.
  intros Hno (Hsrc & Hread & Hpost) Hst (Hbody & (flag & Hflag & Htrue) & Hdata)
    Hmd Hinline Hnot (Hout & Hwr).
  pose proof (no_output_exists _ _ _ Hno) as Hex.
  pose proof (no_output_node _ _ _ Hno) as Hnode.
  assert (has_output (<[target out pdf_file := File ""]> (st_fs st)) out pdf_file = true)
    as Hafter.
  { unfold has_output, path_exists, target. rewrite node_at_entry.
    by rewrite lookup_insert_eq. }
  unfold uploaded, announced, target in *. cbn [trace] in Hpost.
  unfold_control. forward.
  destruct inline; try done. by destruct (Hnot s).
Qed.

Lemma non_text_content_leaves_empty_output_witness :
  let e := Sample.world (Returns (Sample.reply 200 (Sample.inline_result (JNum 7))))
                        Sample.unreachable in
  let st' := (loop_body e Sample.cfg ["out"] 1 1 Sample.a_pdf (initial Sample.one_pdf)).1 in
  st_fs st' = <[target ["out"] Sample.a_pdf := File ""]> Sample.one_pdf ∧
  success_count st' = 0%nat ∧
  fail_count st' = 1%nat ∧
  head (trace st') = Some (EvPrint (MsgException TypeError)) ∧
  has_output (st_fs st') ["out"] Sample.a_pdf = true.
Proof.
  intros e.
  apply (non_text_content_leaves_empty_output e Sample.cfg ["out"] 1 1 Sample.a_pdf
           (initial Sample.one_pdf) "%PDF-a"
           (Sample.reply 200 (Sample.inline_result (JNum 7)))
           (Sample.inline_result (JNum 7))
           (JObj [("markdownContent", JNum 7)]) (JNum 7)).
  - reflexivity.
  - repeat split; reflexivity.
  - reflexivity.
  - split; [reflexivity|]. split; [|reflexivity]. by exists (JBool true).
  - reflexivity.
  - reflexivity.
  - discriminate.
  - split; reflexivity.
Defined.

(** X8.  When the converted text is there but the output file cannot be
    created (the output location is not a directory, or the system
    refuses), the pass counts one failure and no success, and leaves the
    file system as it was: the text is lost. *)
Theorem unwritable_output_is_failure e cfg out total index pdf_file st content r
    result data s :
  has_output (st_fs st) out pdf_file = false →
  answered e cfg total index pdf_file st content r →
  status_code r = 200 →
  reports_success r result data →
  py_get data "markdownContent" JNull = inr (JStr s) → s ≠ "" →
  node_at (st_fs st) out ≠ Some Dir ∨ write_denied e (target out pdf_file) = true →
  let st' := (loop_body e cfg out total index pdf_file st).1 in
  (loop_body e cfg out total index pdf_file st).2 = inr tt ∧
  st_fs st' = st_fs st ∧
  success_count st' = success_count st ∧
  fail_count st' = S (fail_count st) ∧
  posts (trace st') = path_name pdf_file :: posts (trace st) ∧
  exceptions (trace st') ≠ exceptions (trace st).
Proof.
  intros Hno (Hsrc & Hread & Hpost) Hst (Hbody & (flag & Hflag & Htrue) & Hdata)
    Hmd Hs%truthy_nonempty Hbad.
  pose proof (no_output_exists _ _ _ Hno) as Hex.
  pose proof (no_output_node _ _ _ Hno) as Hnode.
  assert (∀ (m : message) (l : list message), m :: l ≠ l) as Hcons.
  { intros m l H. apply (f_equal length) in H. cbn in H. lia. }
  unfold uploaded, announced, target in *. cbn [trace] in Hpost.
  unfold_control. forward.
  destruct (node_at (st_fs st) out) as [[|c]|] eqn:Hout; cbn.
  - destruct Hbad as [?|Hden]; [done|]. rewrite ?Hnode, Hden. cbn.
    split_and!; try done; apply Hcons.
  - split_and!; try done; apply Hcons.
  - split_and!; try done; apply Hcons.
Qed.

Lemma unwritable_output_is_failure_witness :
  let e := Sample.world (Returns (Sample.reply 200 (Sample.inline_result (JStr "# A"))))
                        Sample.unreachable in
  let st := initial Scene.out_is_file in
  let st' := (loop_body e Sample.cfg ["out"] 1 1 Sample.a_pdf st).1 in
  (loop_body e Sample.cfg ["out"] 1 1 Sample.a_pdf st).2 = inr tt ∧
  st_fs st' = st_fs st ∧
  success_count st' = success_count st ∧
  fail_count st' = S (fail_count st) ∧
  posts (trace st') = path_name Sample.a_pdf :: posts (trace st) ∧
  exceptions (trace st') ≠ exceptions (trace st).
Proof.
  intros e st.
  apply (unwritable_output_is_failure e Sample.cfg ["out"] 1 1 Sample.a_pdf st "%PDF-a"
           (Sample.reply 200 (Sample.inline_result (JStr "# A")))
           (Sample.inline_result (JStr "# A"))
           (JObj [("markdownContent", JStr "# A")]) "# A").
  - reflexivity.
  - repeat split; reflexivity.
  - reflexivity.
  - split; [reflexivity|]. split; [|reflexivity]. by exists (JBool true).
  - reflexivity.
  - discriminate.
  - left. discriminate.
Defined.

(** ** Whole runs: accounting and footprint *)

(** X9.  Every document a run announces ends in exactly one of the three
    outcomes: the number of announced documents is the sum of the
    success counter, the failure counter and the number of skip
    notices. *)
Theorem run_accounting e cfg σ :
  length (documents (trace (run e cfg σ)))
  = (success_count (run e cfg σ) + fail_count (run e cfg σ)
     + length (skips (trace (run e cfg σ))))%nat.
Proof.
  destruct (loop_entry e cfg σ) as [[st0 files]|] eqn:H.
  - destruct (run_completed_observations _ _ _ _ _ H)
      as (st3 & vs & Δ & Hrun & _ & -> & -> & _ & _ & -> & ->).
    destruct (loop_entry_state _ _ _ _ _ H) as (_ & _ & _ & _ & _ & _ & Hs0 & Hf0 & _).
    destruct (loop_run_counts _ _ _ _ _ _ _ Hrun) as (-> & -> & ->).
    destruct (loop_run_documents _ _ _ _ _ _ _ Hrun) as (-> & _ & _).
    pose proof (loop_run_length _ _ _ _ _ _ _ Hrun) as Hlen.
    pose proof (count_verdict_total vs) as Htot.
    rewrite length_reverse, length_fmap, Hs0, Hf0. lia.
  - destruct (run_early_exit _ _ _ H) as (_ & -> & -> & _ & _ & -> & -> & _). done.
Qed.

Lemma mkdir_from_adds_directories e done todo st p :
  st_fs (mkdir_from e done todo st).1 !! p = st_fs st !! p ∨
  (st_fs st !! p = None ∧ st_fs (mkdir_from e done todo st).1 !! p = Some Dir).
Proof.
  revert done st. induction todo as [|seg todo IH]; intros done st; [by left|].
  cbn [mkdir_from]. rewrite node_at_entry.
  destruct (st_fs st !! (done ++ [seg])) as [[|content]|] eqn:Hp.
  - apply IH.
  - by left.
  - destruct (mkdir_denied e (done ++ [seg])); [by left|].
    unfold bind, set_node. cbn [fst snd].
    set (st1 := mkState _ _ _ _).
    assert (∀ q, q ≠ done ++ [seg] → st_fs st1 !! q = st_fs st !! q) as Hne.
    { intros q Hq. unfold st1. cbn. by rewrite lookup_insert_ne. }
    destruct (IH (done ++ [seg]) st1) as [Hsame | [Hnone Hdir]].
    + destruct (decide (p = done ++ [seg])) as [->|Hq].
      * right. split; [done|]. rewrite Hsame. unfold st1. cbn.
        by rewrite lookup_insert_eq.
      * left. by rewrite Hsame, Hne.
    + destruct (decide (p = done ++ [seg])) as [->|Hq].
      * unfold st1 in Hnone. cbn in Hnone. by rewrite lookup_insert_eq in Hnone.
      * right. split; [|done]. by rewrite <- Hne.
Qed.

Lemma ensure_output_dir_adds_directories e cfg st p :
  st_fs (ensure_output_dir e cfg st).1 !! p = st_fs st !! p ∨
  (st_fs st !! p = None ∧ st_fs (ensure_output_dir e cfg st).1 !! p = Some Dir ∧
   p `prefix_of` OUTPUT_DIR cfg).
Proof.
  destruct (ensure_output_dir_spec e cfg st)
    as (st1 & ready & Δ & Heq & _ & _ & _ & _ & _ & _ & _ & _ & _ & _ & Hframe & _).
  destruct (decide (p `prefix_of` OUTPUT_DIR cfg)) as [Hpre|Hpre].
  - assert (st_fs (ensure_output_dir e cfg st).1
            = st_fs (mkdir_from e [] (OUTPUT_DIR cfg) st).1 ∨
            st_fs (ensure_output_dir e cfg st).1 = st_fs st) as [Hfs|Hfs].
    { unfold ensure_output_dir, exists_, bind, try_except, mkdir_parents.
      destruct (path_exists (st_fs st) (OUTPUT_DIR cfg)); cbn [negb]; [by right|].
      left. by destruct (mkdir_from e [] (OUTPUT_DIR cfg) st) as [st2 [ex|[]]]. }
    + rewrite Hfs.
      destruct (mkdir_from_adds_directories e [] (OUTPUT_DIR cfg) st p) as [?|[? ?]];
        [by left|by right].
    + left. by rewrite Hfs.
  - left. rewrite Heq. cbn. by apply Hframe.
Qed.

Lemma loop_run_adds_outputs e out l st st' vs Δ p :
  loop_run e out l st st' vs Δ →
  st_fs st' !! p = st_fs st !! p ∨
  (st_fs st !! p = None ∧
   ∃ f s, f ∈ l ∧ p = target out f ∧ st_fs st' !! p = Some (File s)).
Proof.
  induction 1 as [|f rest st st1 st2 v vs Δ1 Δ2 Hit Hrun IH]; [by left|].
  assert (st_fs st1 !! p = st_fs st !! p ∨
          (st_fs st !! p = None ∧ p = target out f ∧
           ∃ s, st_fs st1 !! p = Some (File s))) as Hstep.
  { destruct (decide (p = target out f)) as [->|Hne];
      [|left; by eapply iteration_frame].
    destruct Hit as [_ _ _ _ Hv]. destruct v; cbn in Hv.
    - destruct Hv as (_ & -> & _). by left.
    - destruct Hv as (Hno%no_output_lookup & (s & _ & ->) & _).
      right. split; [done|]. split; [done|]. exists s. by rewrite lookup_insert_eq.
    - destruct Hv as (Hno%no_output_lookup & [-> | ->] & _); [by left|].
      right. split; [done|]. split; [done|]. exists "". by rewrite lookup_insert_eq. }
  destruct IH as [Hsame | (Hnone & g & s & Hg & -> & Hfile)].
  - rewrite Hsame. destruct Hstep as [?|(Hnone & -> & s & Hs)]; [by left|].
    right. split; [done|]. exists f, s. split; [by left|done].
  - destruct Hstep as [Heq|(_ & _ & s' & Hs')]; [|congruence].
    right. split; [congruence|]. exists g, s. split; [by right|done].
Qed.

(** X10.  A run never deletes or changes a node, sources included.  What
    it adds is of two kinds only: directories on the way to the output
    location, and files in the output location named after the stem of
    a document it announced. *)
Theorem run_only_adds e cfg σ p :
  st_fs (run e cfg σ) !! p = σ !! p ∨
  (σ !! p = None ∧
   ((st_fs (run e cfg σ) !! p = Some Dir ∧ p `prefix_of` OUTPUT_DIR cfg) ∨
    (∃ name s, name ∈ documents (trace (run e cfg σ)) ∧
               p = OUTPUT_DIR cfg ++ [stem name +:+ ".md"] ∧
               st_fs (run e cfg σ) !! p = Some (File s)))).
Proof.
  pose proof (ensure_output_dir_adds_directories e cfg (initial σ) p) as Hens.
  destruct (loop_entry e cfg σ) as [[st0 files]|] eqn:H.
  - destruct (run_completed_observations _ _ _ _ _ H)
      as (st3 & vs & Δ & Hrun & -> & _ & _ & _ & _ & _ & ->).
    destruct (loop_entry_state _ _ _ _ _ H) as (st1 & Heq & _ & _ & _ & Hfs0 & _).
    rewrite Heq in Hens. cbn in Hens.
    destruct (loop_run_documents _ _ _ _ _ _ _ Hrun) as (-> & _ & _).
    destruct (loop_run_adds_outputs _ _ _ _ _ _ _ p Hrun)
      as [Hsame | (Hnone & f & s & Hf & -> & Hfile)].
    + rewrite Hsame, Hfs0. destruct Hens as [?|(? & ? & ?)]; [by left|].
      right. split; [done|]. by left.
    + rewrite Hfs0 in Hnone. destruct Hens as [Hsame|(_ & Hdir & _)]; [|congruence].
      right. split; [congruence|]. right. exists (path_name f), s.
      split; [|done]. apply elem_of_reverse. by apply list_elem_of_fmap_2.
  - assert (st_fs (run e cfg σ) = st_fs (ensure_output_dir e cfg (initial σ)).1) as ->.
    { unfold loop_entry in H. unfold run, convert_pdf_to_md, bind, exists_.
      destruct (ensure_output_dir e cfg (initial σ)) as [st1 [ex|[|]]]; try done.
      cbn [negb fst] in *.
      destruct (path_exists (st_fs st1) (INPUT_DIR cfg)); [|done].
      cbn [negb]. rewrite glob_pdf_eq in H |- *.
      by destruct (_ <$> _). }
    destruct Hens as [?|(? & ? & ?)]; [by left|]. right. split; [done|]. by left.
Qed.

(** ** What depends on the service *)

Lemma loop_body_without_200 e cfg out total index pdf_file st :
  (∀ h url name content opts timeout r,
     http_post e h url name content opts timeout = Returns r → status_code r ≠ 200) →
  st_fs (loop_body e cfg out total index pdf_file st).1 = st_fs st ∧
  success_count (loop_body e cfg out total index pdf_file st).1 = success_count st ∧
  gets (trace (loop_body e cfg out total index pdf_file st).1) = gets (trace st).
Proof.
  intros Hnever.
  unfold loop_body, try_block, except_block, handle_response, requests_post, open_rb,
    exists_, try_except, bind, lift, of_outcome, print, emit, incr_fail, ret, raise.
  cbn [st_fs success_count fail_count trace].
  repeat (break_match; simplify_eq/=); try done.
  all: match goal with
       | H : http_post _ _ _ _ _ _ _ = Returns ?r, H' : (status_code ?r =? 200) = true |- _ =>
           apply Hnever in H; apply Z.eqb_eq in H'; done
       end.
Qed.

Lemma for_loop_without_200 e cfg out total index l st :
  (∀ h url name content opts timeout r,
     http_post e h url name content opts timeout = Returns r → status_code r ≠ 200) →
  st_fs (for_loop e cfg out total index l st).1 = st_fs st ∧
  success_count (for_loop e cfg out total index l st).1 = success_count st ∧
  gets (trace (for_loop e cfg out total index l st).1) = gets (trace st).
Proof.
  intros Hnever. revert index st. induction l as [|f rest IH]; intros index st; [done|].
  rewrite for_loop_cons.
  destruct (IH (S index) (loop_body e cfg out total index f st).1) as (-> & -> & ->).
  by apply loop_body_without_200.
Qed.

(** X11.  Only an answer with status 200 can lead to a success or to a
    file being written.  If the service never answers an upload with
    status 200 (it is unreachable, times out, or answers with other
    statuses only), the run counts no success, downloads nothing, and
    every file on disk at the end was there, with the same content, at
    the start. *)
Theorem no_success_without_status_200 e cfg σ :
  (∀ h url name content opts timeout r,
     http_post e h url name content opts timeout = Returns r → status_code r ≠ 200) →
  success_count (run e cfg σ) = 0%nat ∧
  gets (trace (run e cfg σ)) = [] ∧
  ∀ p s, st_fs (run e cfg σ) !! p = Some (File s) → σ !! p = Some (File s).
Proof.
  intros Hnever.
  assert (∀ p s, st_fs (ensure_output_dir e cfg (initial σ)).1 !! p = Some (File s) →
                 σ !! p = Some (File s)) as Hens.
  { intros p s Hp.
    destruct (ensure_output_dir_adds_directories e cfg (initial σ) p)
      as [Hsame|(_ & Hdir & _)]; [rewrite Hsame in Hp; exact Hp|congruence]. }
  destruct (loop_entry e cfg σ) as [[st0 files]|] eqn:H.
  - destruct (loop_entry_state _ _ _ _ _ H)
      as (st1 & Heq & _ & _ & _ & Hfs0 & Hs0 & _ & _ & Hg0 & _).
    rewrite Heq in Hens. cbn in Hens.
    unfold run. rewrite (run_loop_entry _ _ _ _ _ H).
    destruct (for_loop_without_200 e cfg (OUTPUT_DIR cfg) (length files) 1 files st0 Hnever)
      as (Hfs & Hsc & Hg).
    unfold summary, print, emit. cbn. rewrite Hfs, Hsc, Hfs0, Hs0.
    split; [done|]. split; [|done].
    unfold gets in *. cbn. by rewrite Hg, Hg0.
  - destruct (run_early_exit _ _ _ H) as (_ & -> & _ & _ & -> & _).
    split; [done|]. split; [done|].
    assert (st_fs (run e cfg σ) = st_fs (ensure_output_dir e cfg (initial σ)).1) as ->;
      [|done].
    unfold loop_entry in H. unfold run, convert_pdf_to_md, bind, exists_.
    destruct (ensure_output_dir e cfg (initial σ)) as [st1 [ex|[|]]]; try done.
    cbn [negb fst] in *.
    destruct (path_exists (st_fs st1) (INPUT_DIR cfg)); [|done].
    cbn [negb]. rewrite glob_pdf_eq in H |- *.
    by destruct (_ <$> _).
Qed.

Lemma no_success_without_status_200_witness :
  let e := Sample.world Sample.unreachable Sample.unreachable in
  success_count (run e Sample.cfg Sample.two_pdfs) = 0%nat ∧
  gets (trace (run e Sample.cfg Sample.two_pdfs)) = [] ∧
  ∀ p s, st_fs (run e Sample.cfg Sample.two_pdfs) !! p = Some (File s) →
         Sample.two_pdfs !! p = Some (File s).
Proof.
  intros e.
  apply (no_success_without_status_200 e Sample.cfg Sample.two_pdfs).
  intros h url name content opts timeout r Hr. discriminate Hr.
Defined.

Lemma posts_of_uploads h : posts h = (λ u, u.1.1.1.2) <$> uploads h.
Proof.
  unfold posts, uploads. induction h as [|ev h IH]; [done|].
  destruct ev; cbn; by rewrite ?IH.
Qed.

Lemma no_posts_no_uploads h : posts h = [] → uploads h = [].
Proof. rewrite posts_of_uploads. by destruct (uploads h). Qed.

Ltac request_leaf :=
  lazymatch goal with
  | |- ∃ Δ, ?t = Δ ++ trace ?st ∧ _ =>
      let d := delta_of t (trace st) in
      exists d; split; [reflexivity|]; cbn;
      split;
      first [ by left
            | right; eexists; split; [reflexivity|]; first [done | discriminate] ]
  end.

(** The requests of one pass: at most one upload, of the source file as
    it is on disk, and at most one download, after the upload. *)
Lemma loop_body_requests e cfg out total index pdf_file st :
  ∃ Δ,
    trace (loop_body e cfg out total index pdf_file st).1 = Δ ++ trace st ∧
    (uploads Δ = [] ∨
     ∃ content,
       uploads Δ = [(API_URL cfg, path_name pdf_file, content, options, 600)] ∧
       node_at (st_fs st) pdf_file = Some (File content)) ∧
    (gets Δ = [] ∨ ∃ url, gets Δ = [(url, 60)] ∧ uploads Δ ≠ []).
Proof.
  unfold_script. cbn [st_fs success_count fail_count trace].
  repeat (break_match; simplify_eq/=).
  all: request_leaf.
Qed.

Lemma for_loop_requests e cfg out total index l st :
  (∀ f g, f ∈ l → g ∈ l → f ≠ target out g) →
  ∃ Δ,
    trace (for_loop e cfg out total index l st).1 = Δ ++ trace st ∧
    Forall (λ u, ∃ f content,
                   f ∈ l ∧ u = (API_URL cfg, path_name f, content, options, 600) ∧
                   node_at (st_fs st) f = Some (File content)) (uploads Δ) ∧
    Forall (λ g, g.2 = 60) (gets Δ) ∧
    (length (gets Δ) ≤ length (uploads Δ))%nat.
Proof.
  revert index st. induction l as [|f rest IH]; intros index st Hsep.
  { exists []. cbn. split; [done|]. split; [constructor|]. split; [constructor|lia]. }
  rewrite for_loop_cons.
  destruct (loop_body_requests e cfg out total index f st) as (Δ1 & Ht1 & Hup & Hget).
  destruct (loop_body_iteration e cfg out total index f st) as [_ (v & Δ' & Hit)].
  destruct (IH (S index) (loop_body e cfg out total index f st).1)
    as (Δ2 & Ht2 & Hups & Hgets & Hlen).
  { intros g g' Hg Hg'. apply Hsep; by right. }
  exists (Δ2 ++ Δ1). split; [by rewrite Ht2, Ht1, (assoc _)|].
  unfold uploads, gets in *. rewrite !omap_app, !length_app. split; [|split].
  - apply Forall_app. split.
    + eapply Forall_impl; [exact Hups|]. cbn.
      intros u (g & content & Hg & -> & Hnode). exists g, content.
      split; [by right|]. split; [done|].
      destruct g as [|s g]; [done|]. cbn [node_at] in *.
      rewrite <- Hnode. symmetry. eapply iteration_frame; [done|].
      apply Hsep; [by right|by left].
    + destruct Hup as [-> | (content & -> & Hnode)]; [constructor|].
      repeat constructor. exists f, content. split; [by left|done].
  - apply Forall_app. split; [done|].
    destruct Hget as [-> | (url & -> & _)]; [constructor|]. by repeat constructor.
  - destruct Hget as [-> | (url & -> & Hne)]; cbn; [lia|].
    destruct (omap upload_of Δ1); [done|]. cbn. lia.
Qed.

(** X12.  Every upload of a run goes to the configured address, with the
    fixed options and the timeout 600, under the name of a matching entry
    of the input directory, and carries the content that file has on disk
    when the run starts.  Every download is sent with the timeout 60, and
    there are no more downloads than uploads. *)
Theorem requests_are_faithful e cfg σ :
  Forall (λ u, ∃ name content,
                 u = (API_URL cfg, name, content, options, 600) ∧
                 matches_pdf name = true ∧
                 σ !! (INPUT_DIR cfg ++ [name]) = Some (File content))
         (uploads (trace (run e cfg σ))) ∧
  Forall (λ g, g.2 = 60) (gets (trace (run e cfg σ))) ∧
  (length (gets (trace (run e cfg σ))) ≤ length (uploads (trace (run e cfg σ))))%nat.
Proof.
  destruct (loop_entry e cfg σ) as [[st0 files]|] eqn:H.
  - destruct (loop_entry_state _ _ _ _ _ H)
      as (st1 & Heq & _ & Hfiles & _ & Hfs0 & _ & _ & Hp0%no_posts_no_uploads & Hg0 & _).
    assert (∀ f, f ∈ files →
                 ∃ name, f = INPUT_DIR cfg ++ [name] ∧ matches_pdf name = true) as Hnames.
    { intros f Hf. rewrite Hfiles in Hf.
      apply list_elem_of_fmap in Hf as (name & -> & [Hm _]%list_elem_of_filter).
      by exists name. }
    destruct (for_loop_requests e cfg (OUTPUT_DIR cfg) (length files) 1 files st0)
      as (Δ & Ht & Hups & Hgets & Hlen).
    { intros f g Hf Hg Heq'. destruct (Hnames f Hf) as (name & -> & Hm).
      unfold target in Heq'. apply app_inj_tail in Heq' as [_ ->].
      by rewrite md_name_not_pdf in Hm. }
    unfold run. rewrite (run_loop_entry _ _ _ _ _ H).
    unfold summary, print, emit. cbn [fst trace]. rewrite Ht.
    change (uploads (EvPrint ?m :: ?h)) with (uploads h).
    change (gets (EvPrint ?m :: ?h)) with (gets h).
    unfold uploads, gets in *.
    rewrite !omap_app, Hp0, Hg0, !app_nil_r. split; [|done].
    eapply Forall_impl; [exact Hups|]. cbn.
    intros u (f & content & Hf & -> & Hnode).
    destruct (Hnames f Hf) as (name & -> & Hm). rewrite path_name_entry.
    exists name, content. split; [done|]. split; [done|].
    rewrite node_at_entry, Hfs0 in Hnode.
    destruct (ensure_output_dir_adds_directories e cfg (initial σ) (INPUT_DIR cfg ++ [name]))
      as [Hsame|(_ & Hdir & _)]; rewrite Heq in *; cbn in *; congruence.
  - destruct (run_early_exit _ _ _ H) as (_ & _ & _ & Hp%no_posts_no_uploads & -> & _).
    rewrite Hp. split; [constructor|]. split; [constructor|done].
Qed.

(** ** The early exits and the output location *)

(** X13.  When the output directory is missing and cannot be created,
    the run prints the notice with the exception and stops: nothing is
    enumerated, announced or requested and the counters stay at zero;
    the ancestors created before the failure stay on disk. *)
Theorem creation_failure_stops_run e cfg σ st1 ex :
  path_exists σ (OUTPUT_DIR cfg) = false →
  mkdir_parents e (OUTPUT_DIR cfg) (initial σ) = (st1, inl ex) →
  convert_pdf_to_md e cfg (initial σ) =
    (mkState (st_fs st1) 0 0 [EvPrint (MsgCannotCreateOutputDir ex)], inr tt) ∧
  ∀ p, is_Some (σ !! p) → st_fs st1 !! p = σ !! p.
Proof.
  intros Hex Hmk. split.
  - destruct (mkdir_from_spec e [] (OUTPUT_DIR cfg) (initial σ)) as (Ht & Hs & Hf & _).
    unfold mkdir_parents in Hmk. rewrite Hmk in Ht, Hs, Hf. cbn in Ht, Hs, Hf.
    unfold convert_pdf_to_md, ensure_output_dir, exists_, bind, try_except,
      mkdir_parents, print, emit, ret.
    cbn [st_fs initial]. rewrite Hex. cbn [negb]. rewrite Hmk. cbn.
    by rewrite Ht, Hs, Hf.
  - intros p Hp.
    destruct (mkdir_from_spec e [] (OUTPUT_DIR cfg) (initial σ)) as (_ & _ & _ & Hk & _).
    unfold mkdir_parents in Hmk. rewrite Hmk in Hk. by apply Hk.
Qed.

Lemma creation_failure_stops_run_witness :
  let e := Sample.world Sample.unreachable Sample.unreachable in
  convert_pdf_to_md e Scene.blocked_cfg (initial Scene.blocked) =
    (mkState Scene.blocked 0 0 [EvPrint (MsgCannotCreateOutputDir NotADirectoryError)],
     inr tt) ∧
  ∀ p, is_Some (Scene.blocked !! p) → Scene.blocked !! p = Scene.blocked !! p.
Proof.
  intros e.
  apply (creation_failure_stops_run e Scene.blocked_cfg Scene.blocked
           (initial Scene.blocked) NotADirectoryError); reflexivity.
Defined.

(** X14.  What a run writes never matches the input pattern.  When the
    output location exists at the start, the documents found by an
    enumeration after the run are those found before it, even if input
    and output are the same directory: outputs are never taken for
    sources. *)
Theorem run_preserves_enumeration e cfg σ :
  path_exists σ (OUTPUT_DIR cfg) = true →
  matching_files cfg (st_fs (run e cfg σ)) ≡ₚ matching_files cfg σ.
Proof.
  intros Hout.
  destruct (ensure_output_dir_spec e cfg (initial σ))
    as (st1 & ready & Δ0 & Heq & _ & _ & _ & _ & _ & _ & _ & _ & _ & _ & _ & _ & Hsame & _).
  destruct (Hsame Hout) as [-> ->].
  destruct (loop_entry e cfg σ) as [[st0 files]|] eqn:H.
  - destruct (run_completed_observations _ _ _ _ _ H) as (st3 & vs & Δ & Hrun & -> & _).
    destruct (loop_entry_state _ _ _ _ _ H) as (st1 & Heq' & _ & _ & _ & Hfs0 & _).
    rewrite Heq in Heq'. injection Heq' as <-.
    unfold matching_files.
    by rewrite (loop_run_matching _ _ _ _ _ _ _ _ Hrun), Hfs0.
  - assert (st_fs (run e cfg σ) = σ) as ->; [|done].
    unfold loop_entry in H. unfold run, convert_pdf_to_md, bind, exists_.
    rewrite Heq in H |- *. cbn [negb fst st_fs initial] in *.
    destruct (path_exists σ (INPUT_DIR cfg)); [|done].
    cbn [negb]. rewrite glob_pdf_eq in H |- *.
    by destruct (_ <$> _).
Qed.

Lemma run_preserves_enumeration_witness :
  let e := Sample.world (Returns (Sample.reply 200 (Sample.inline_result (JStr "# text"))))
                        Sample.unreachable in
  matching_files Scene.flat_cfg (st_fs (run e Scene.flat_cfg Scene.flat))
  ≡ₚ matching_files Scene.flat_cfg Scene.flat.
Proof.
  intros e. apply (run_preserves_enumeration e Scene.flat_cfg Scene.flat). reflexivity.
Defined.





Lemma count_verdict_none v vs :
  count_verdict v vs = 0%nat → Forall (λ w, w ≠ v) vs.
Proof.
  unfold count_verdict. induction vs as [|w vs IH]; [constructor|].
  rewrite filter_cons. case_decide as Hw; cbn; [done|].
  intros Hlen. constructor; [done|by apply IH].
Qed.

Lemma loop_run_unfailed_outputs e out l st st' vs Δ :
  loop_run e out l st st' vs Δ → Forall (λ v, v ≠ Failed) vs →
  ∀ f, f ∈ l → has_output (st_fs st') out f = true.
Proof.
  induction 1 as [|f rest st st1 st2 v vs Δ1 Δ2 Hit Hrun IH].
  { intros _ f Hf. by apply elem_of_nil in Hf. }
  intros Hall g Hg. apply Forall_cons in Hall as [Hv Hall].
  apply elem_of_cons in Hg as [->|Hg]; [|by apply IH].
  unfold has_output. eapply loop_run_exists; [done|].
  destruct Hit as [_ _ _ _ Hit]. destruct v; [| |done]; cbn in Hit.
  - destruct Hit as (Hex & -> & _). exact Hex.
  - destruct Hit as (_ & (s & _ & ->) & _).
    unfold path_exists, target. rewrite node_at_entry.
    fold (target out f). by rewrite lookup_insert_eq.
Qed.

(** X17.  A run that reaches the loop and reports no failure leaves
    every enumerated document with its Output Document on disk, and each
    of these documents was either converted or skipped. *)
Theorem clean_run_converts_everything e cfg σ st0 files :
  loop_entry e cfg σ = Some (st0, files) →
  fail_count (run e cfg σ) = 0%nat →
  (∀ f, f ∈ files → has_output (st_fs (run e cfg σ)) (OUTPUT_DIR cfg) f = true) ∧
  (success_count (run e cfg σ) + length (skips (trace (run e cfg σ))))%nat = length files.
Proof.
  intros H Hfail.
  destruct (run_completed_observations _ _ _ _ _ H)
    as (st3 & vs & Δ & Hrun & Hfs & Hsc & Hfc & _ & _ & Hsk & _).
  destruct (loop_entry_state _ _ _ _ _ H) as (_ & _ & _ & _ & _ & _ & Hs0 & Hf0 & _).
  destruct (loop_run_counts _ _ _ _ _ _ _ Hrun) as (Hs & Hf & Hk).
  pose proof (loop_run_length _ _ _ _ _ _ _ Hrun) as Hlen.
  pose proof (count_verdict_total vs) as Htot.
  rewrite Hfs, Hsc, Hsk. split; [|lia].
  eapply loop_run_unfailed_outputs; [done|].
  apply count_verdict_none. lia.
Qed.

Lemma clean_run_converts_everything_witness :
  let e := Sample.world (Returns (Sample.reply 200 (Sample.inline_result (JStr "# text"))))
                        Sample.unreachable in
  let files := [Sample.b_pdf; Sample.a_pdf] in
  (∀ f, f ∈ files →
        has_output (st_fs (run e Sample.cfg Sample.two_pdfs)) (OUTPUT_DIR Sample.cfg) f = true) ∧
  (success_count (run e Sample.cfg Sample.two_pdfs)
   + length (skips (trace (run e Sample.cfg Sample.two_pdfs))))%nat = length files.
Proof.
  intros e.
  apply (clean_run_converts_everything e Sample.cfg Sample.two_pdfs
           (mkState Sample.two_pdfs 0 0
              [EvPrint (MsgApiUrl (API_URL Sample.cfg)); EvPrint (MsgFound 2);
               EvGlob (INPUT_DIR Sample.cfg)])
           [Sample.b_pdf; Sample.a_pdf]).
  - vm_compute. reflexivity.
  - vm_compute. reflexivity.
Defined.

Lemma loop_body_output_is_file e cfg out total index pdf_file st c :
  node_at (st_fs st) out = Some (File c) →
  st_fs (loop_body e cfg out total index pdf_file st).1 = st_fs st ∧
  success_count (loop_body e cfg out total index pdf_file st).1 = success_count st.
Proof.
  intros Hout. unfold_script. cbn [st_fs success_count fail_count trace].
  repeat (break_match; simplify_eq/=); done.
Qed.

Lemma for_loop_output_is_file e cfg out total index l st c :
  node_at (st_fs st) out = Some (File c) →
  st_fs (for_loop e cfg out total index l st).1 = st_fs st ∧
  success_count (for_loop e cfg out total index l st).1 = success_count st.
Proof.
  revert index st. induction l as [|f rest IH]; intros index st Hout; [done|].
  rewrite for_loop_cons.
  destruct (loop_body_output_is_file e cfg out total index f st c Hout) as [Hfs Hs].
  destruct (IH (S index) (loop_body e cfg out total index f st).1) as [-> ->];
    [by rewrite Hfs|done].
Qed.

(** X18.  When the output location exists but is a regular file, the
    script does not notice: it goes on, uploads the documents, and can
    store none of the answers.  The run counts no success and leaves the
    file system exactly as it was. *)
Theorem output_location_is_a_file e cfg σ c :
  node_at σ (OUTPUT_DIR cfg) = Some (File c) →
  st_fs (run e cfg σ) = σ ∧ success_count (run e cfg σ) = 0%nat.
Proof.
  intros Hout.
  assert (path_exists σ (OUTPUT_DIR cfg) = true) as Hex
    by (unfold path_exists; by rewrite Hout).
  destruct (ensure_output_dir_spec e cfg (initial σ))
    as (st1 & ready & Δ0 & Heq & _ & _ & _ & _ & _ & _ & _ & _ & _ & _ & _ & _ & Hsame & _).
  destruct (Hsame Hex) as [-> ->].
  destruct (loop_entry e cfg σ) as [[st0 files]|] eqn:H.
  - destruct (loop_entry_state _ _ _ _ _ H) as (st1 & Heq' & _ & _ & _ & Hfs0 & Hs0 & _).
    rewrite Heq in Heq'. injection Heq' as <-. cbn in Hfs0.
    unfold run. rewrite (run_loop_entry _ _ _ _ _ H).
    destruct (for_loop_output_is_file e cfg (OUTPUT_DIR cfg) (length files) 1 files st0 c)
      as [Hfs Hs]; [by rewrite Hfs0|].
    unfold summary, print, emit. cbn. by rewrite Hfs, Hs.
  - destruct (run_early_exit _ _ _ H) as (_ & -> & _). split; [|done].
    unfold loop_entry in H. unfold run, convert_pdf_to_md, bind, exists_.
    rewrite Heq in H |- *. cbn [negb fst st_fs initial] in *.
    destruct (path_exists σ (INPUT_DIR cfg)); [|done].
    cbn [negb]. rewrite glob_pdf_eq in H |- *.
    by destruct (_ <$> _).
Qed.

Lemma output_location_is_a_file_witness :
  let e := Sample.world (Returns (Sample.reply 200 (Sample.inline_result (JStr "# text"))))
                        Sample.unreachable in
  st_fs (run e Sample.cfg Scene.out_is_file) = Scene.out_is_file ∧
  success_count (run e Sample.cfg Scene.out_is_file) = 0%nat.
Proof.
  intros e. apply (output_location_is_a_file e Sample.cfg Scene.out_is_file "text").
  reflexivity.
Defined.

(** ** Which documents are uploaded, and in which order *)

(** X19.  A pass uploads its document exactly when the document has no
    output yet and its source can be opened, and then exactly once: in
    all other cases it sends nothing. *)
Theorem upload_decision e cfg out total index pdf_file st :
  posts (trace (loop_body e cfg out total index pdf_file st).1)
  = (if negb (has_output (st_fs st) out pdf_file) && readable e (st_fs st) pdf_file
     then [path_name pdf_file] else [])
    ++ posts (trace st).
Proof.
  destruct (loop_body_iteration e cfg out total index pdf_file st)
    as [_ (v & Δ & [Ht _ _ _ Hv])].
  rewrite Ht. unfold posts in *. rewrite omap_app. f_equal.
  destruct v; cbn in Hv; destruct_and!;
    repeat match goal with
           | H : has_output _ _ _ = _ |- _ => rewrite H
           | H : readable _ _ _ = _ |- _ => rewrite H
           | H : omap posted _ = _ |- _ => rewrite H
           end; cbn; try done;
    by destruct (readable e (st_fs st) pdf_file).
Qed.

(** X20.  When both directories exist and the input directory holds no
    entry that matches the pattern, the run enumerates it once, prints
    the notice and stops: no document is announced, no request is sent,
    the counters stay at zero and the file system is unchanged. *)
Theorem no_matching_file_stops_run e cfg σ :
  path_exists σ (OUTPUT_DIR cfg) = true →
  path_exists σ (INPUT_DIR cfg) = true →
  matching_files cfg σ = [] →
  lists_faithfully e →
  convert_pdf_to_md e cfg (initial σ) =
    (mkState σ 0 0 [EvPrint (MsgNoPdfFound (INPUT_DIR cfg)); EvGlob (INPUT_DIR cfg)],
     inr tt).
Proof.
  intros Hout Hin Hnone Hfaith.
  destruct (ensure_output_dir_spec e cfg (initial σ))
    as (st1 & ready & Δ0 & Heq & _ & _ & _ & _ & _ & _ & _ & _ & _ & _ & _ & _ & Hsame & _).
  destruct (Hsame Hout) as [-> ->].
  unfold convert_pdf_to_md, bind, exists_. rewrite Heq.
  cbn [negb st_fs initial]. rewrite Hin. cbn [negb]. rewrite glob_pdf_eq.
  cbn [st_fs initial].
  assert (filter (λ name, matches_pdf name = true)
                 (listing_order e (children σ (INPUT_DIR cfg))) = []) as ->; [|done].
  apply Permutation_nil_r. rewrite (Hfaith _).
  unfold matching_files in Hnone. by apply fmap_nil_inv in Hnone as ->.
Qed.

Lemma no_matching_file_stops_run_witness :
  let e := Sample.world Sample.unreachable Sample.unreachable in
  let σ : fs := {[ ["in"] := Dir; ["out"] := Dir; ["in"; "notes.txt"] := File "n" ]} in
  convert_pdf_to_md e Sample.cfg (initial σ) =
    (mkState σ 0 0 [EvPrint (MsgNoPdfFound (INPUT_DIR Sample.cfg));
                    EvGlob (INPUT_DIR Sample.cfg)],
     inr tt).
Proof.
  intros e σ.
  apply (no_matching_file_stops_run e Sample.cfg σ).
  - reflexivity.
  - reflexivity.
  - vm_compute. reflexivity.
  - intros names. reflexivity.
Defined.

Ltac progress_leaf :=
  lazymatch goal with
  | |- ∃ Δ, ?t = Δ ++ trace ?st ∧ _ =>
      let d := delta_of t (trace st) in
      exists d; split; reflexivity
  end.

Lemma loop_body_progress e cfg out total index pdf_file st :
  ∃ Δ,
    trace (loop_body e cfg out total index pdf_file st).1 = Δ ++ trace st ∧
    progress Δ = [(index, total, path_name pdf_file)].
Proof.
  unfold_script. cbn [st_fs success_count fail_count trace].
  repeat (break_match; simplify_eq/=).
  all: progress_leaf.
Qed.

Lemma for_loop_progress e cfg out total index l st :
  ∃ Δ,
    trace (for_loop e cfg out total index l st).1 = Δ ++ trace st ∧
    progress Δ = reverse (imap (λ k f, ((index + k)%nat, total, path_name f)) l).
Proof.
  revert index st. induction l as [|f rest IH]; intros index st.
  { by exists []. }
  rewrite for_loop_cons.
  destruct (loop_body_progress e cfg out total index f st) as (Δ1 & Ht1 & Hp1).
  destruct (IH (S index) (loop_body e cfg out total index f st).1) as (Δ2 & Ht2 & Hp2).
  exists (Δ2 ++ Δ1). split; [by rewrite Ht2, Ht1, (assoc _)|].
  unfold progress in *. rewrite omap_app, Hp1, Hp2. cbn [imap].
  rewrite reverse_cons, Nat.add_0_r. do 2 f_equal.
  apply imap_ext. intros k g _. cbn. do 2 f_equal. lia.
Qed.

Lemma no_documents_no_progress h : documents h = [] → progress h = [].
Proof.
  unfold documents, progress. induction h as [|ev h IH]; [done|].
  destruct ev as [[]| | |]; cbn; try done; apply IH.
Qed.

(** X21.  The documents are processed one after the other in the order
    of the enumeration, each announced once with its rank, counted from
    1, and the number of enumerated documents. *)
Theorem documents_in_enumeration_order e cfg σ st0 files :
  loop_entry e cfg σ = Some (st0, files) →
  reverse (progress (trace (run e cfg σ)))
  = imap (λ k f, (S k, length files, path_name f)) files.
Proof.
  intros H.
  destruct (for_loop_progress e cfg (OUTPUT_DIR cfg) (length files) 1 files st0)
    as (Δ & Ht & Hp).
  destruct (loop_entry_state _ _ _ _ _ H)
    as (_ & _ & _ & _ & _ & _ & _ & _ & _ & _ & _ & Hd0 & _).
  apply no_documents_no_progress in Hd0 as Hp0.
  unfold run. rewrite (run_loop_entry _ _ _ _ _ H).
  unfold summary, print, emit. cbn [fst trace]. rewrite Ht.
  change (progress (EvPrint (MsgSummary ?a ?b ?c) :: ?h)) with (progress h).
  unfold progress in *. rewrite omap_app, Hp, Hp0, app_nil_r, reverse_involutive.
  done.
Qed.

Lemma documents_in_enumeration_order_witness :
  let e := Sample.world Sample.unreachable Sample.unreachable in
  let files := [Sample.b_pdf; Sample.a_pdf] in
  reverse (progress (trace (run e Sample.cfg Sample.two_pdfs)))
  = imap (λ k f, (S k, length files, path_name f)) files.
Proof.
  intros e.
  apply (documents_in_enumeration_order e Sample.cfg Sample.two_pdfs
           (mkState Sample.two_pdfs 0 0
              [EvPrint (MsgApiUrl (API_URL Sample.cfg)); EvPrint (MsgFound 2);
               EvGlob (INPUT_DIR Sample.cfg)])
           [Sample.b_pdf; Sample.a_pdf]).
  vm_compute. reflexivity.
Defined.
